(** * The FAT volume adapter and the block-device slices it is tested with

    A shallow embedding of [features/filesystem/fat/FATFileSystem.cpp]: the
    time stamp [get_fattime], the driver callbacks the FAT engine calls
    ([disk_status], [disk_initialize], [disk_read], [disk_write],
    [disk_ioctl]) and, of [FATFileSystem], the constructor, the destructor
    and the methods [mount], [unmount], [sync], [format], [open], [remove],
    [rename], [opendir], [mkdir] and [stat].

    The file-scope objects [_ffs] and [_ffs_mutex] become fields of an
    explicit [World]; every function is a computation in a state monad over
    that world whose failure case stands for C++ undefined behaviour (a null
    or out-of-bounds access).  The FAT engine, the devices behind the
    [BlockDevice] pointers and the values of the macros come from headers
    that are not part of the two source files; they are parameters. *)

From Stdlib Require Import ZArith String Ascii List Bool Lia.
From stdpp Require Import base list.
Import ListNotations.
Open Scope Z_scope.

(** ** Parameters: what the included headers fix *)

(** The macros and integer widths the source takes from [ffconf.h],
    [integer.h], [diskio.h], [ff.h], [BlockDevice.h] and the toolchain's
    [fcntl.h]. *)
Class Headers := {
  _VOLUMES : nat;            (* ffconf.h: number of volume slots *)
  bd_bits : Z;               (* BlockDevice.h: width of bd_size_t and bd_addr_t *)
  DWORD_bits : Z;            (* integer.h: width of DWORD *)
  CTRL_SYNC : Z;             (* diskio.h: ioctl command codes *)
  GET_SECTOR_COUNT : Z;
  GET_SECTOR_SIZE : Z;
  GET_BLOCK_SIZE : Z;
  O_WRONLY : Z;              (* fcntl.h: open flags *)
  O_RDWR : Z;
  O_APPEND : Z;
  O_CREAT : Z;
  O_TRUNC : Z;
  FA_READ : Z;               (* ff.h: engine open-mode bits *)
  FA_WRITE : Z;
  FA_CREATE_ALWAYS : Z;
  FA_OPEN_ALWAYS : Z;
  FR_OK : Z                  (* ff.h: the engine's success code *)
}.

(** [DRESULT] of [diskio.h], with the enumerators this file returns. *)
Inductive DRESULT : Set := RES_OK | RES_NOTRDY | RES_PARERR.

(** Modelled from the spec: the BlockDevice contract ([BlockDevice.h] is not
    among the sources).  [size] and [get_write_size] are pure and constant;
    [init], [read] and [write] return a signed error code, 0 for success, and
    act on [Ext], the state behind the device pointers.  [read addr size]
    also yields the bytes it stores into the caller's buffer; [write]
    receives the caller's buffer. *)
Record BlockDevice (Ext : Type) := {
  init : Ext -> Z * Ext;
  read : Z -> Z -> Ext -> Z * list Byte.byte * Ext;
  write : list Byte.byte -> Z -> Z -> Ext -> Z * Ext;
  size : Z;
  get_write_size : Z
}.
Arguments init {Ext} _ _.
Arguments read {Ext} _ _ _ _.
Arguments write {Ext} _ _ _ _ _.
Arguments size {Ext} _.
Arguments get_write_size {Ext} _.

(** The entry points of the FAT engine (ChaN's [ff.c]) that the modelled
    methods call.  The engine reaches the devices only through the driver
    callbacks below, which read [_ffs] and never assign it: an entry point
    therefore sees the volume table and transforms [Ext] (its own work areas
    and the device contents), nothing else of the world.  [FIL] is the
    engine's open-file object and [fsize] its size field.  The first argument
    of [f_mount] tells whether a work area ([&_fs]) or [NULL] is passed. *)
Class Engine (Ext FIL : Type) := {
  f_mount : bool -> string -> Z -> list (option (BlockDevice Ext)) -> Ext -> Z * Ext;
  f_mkfs : string -> Z -> Z -> list (option (BlockDevice Ext)) -> Ext -> Z * Ext;
  f_open : string -> Z -> list (option (BlockDevice Ext)) -> Ext -> Z * FIL * Ext;
  f_lseek : FIL -> Z -> list (option (BlockDevice Ext)) -> Ext -> Z * FIL * Ext;
  fsize : FIL -> Z
}.

(** ** The world and its monad *)

(** [_ffs] is the volume table ([None] is a null pointer), [_ffs_mutex] the
    depth to which the single mutex is held, [errno_res] the engine result
    last handed to [fat_filesystem_set_errno] (its table to POSIX codes lives
    in [FATMisc]), [ext] the state of the engine and the devices. *)
Record World (Ext : Type) := {
  _ffs : list (option (BlockDevice Ext));
  _ffs_mutex : nat;
  errno_res : Z;
  ext : Ext
}.
Arguments _ffs {Ext} _.
Arguments _ffs_mutex {Ext} _.
Arguments errno_res {Ext} _.
Arguments ext {Ext} _.

(** A [FATFileSystem] object: the volume identifier (-1 when unmounted) and
    the label [_fsid] derived from it.  The work area [_fs] is part of [ext]. *)
Record FATFileSystem := {
  _id : Z;
  _fsid : string
}.

(** What [open] wraps around the engine's file object. *)
Record FATFileHandle (FIL : Type) := { _fh : FIL }.
Arguments _fh {FIL} _.

Section Adapter.
Context {hdr : Headers} {Ext FIL : Type} {eng : Engine Ext FIL}.

(** A computation reads and writes the world; [None] is undefined behaviour. *)
Definition M (A : Type) : Type := World Ext -> option (A * World Ext).

Definition ret {A : Type} (a : A) : M A := fun w => Some (a, w).

Definition bind {A B : Type} (m : M A) (k : A -> M B) : M B :=
  fun w => match m w with
           | Some (a, w') => k a w'
           | None => None
           end.

Definition undefined {A : Type} : M A := fun _ => None.

Notation "x <- m ;; k" := (bind m (fun x => k))
  (at level 100, m at next level, right associativity).
Notation "m ;; k" := (bind m (fun _ => k))
  (at level 100, right associativity).

(** [_ffs[i]] as an rvalue; an index outside the array is undefined. *)
Definition ffs_at (i : Z) : M (option (BlockDevice Ext)) :=
  fun w => if i <? 0 then None
           else match _ffs w !! Z.to_nat i with
                | Some slot => Some (slot, w)
                | None => None
                end.

(** [_ffs[i] = v]. *)
Definition ffs_set (i : Z) (v : option (BlockDevice Ext)) : M unit :=
  fun w => if (0 <=? i) && (Z.to_nat i <? length (_ffs w))%nat
           then Some (tt, {| _ffs := <[Z.to_nat i := v]> (_ffs w);
                             _ffs_mutex := _ffs_mutex w;
                             errno_res := errno_res w;
                             ext := ext w |})
           else None.

(** [_ffs[pdrv]->...]: the device a slot points to; null is undefined. *)
Definition ffs_deref (pdrv : Z) : M (BlockDevice Ext) :=
  slot <- ffs_at pdrv ;;
  match slot with
  | Some bd => ret bd
  | None => undefined
  end.

(** A call into the devices or the engine: it transforms [ext] only. *)
Definition on_ext {A : Type} (f : Ext -> A * Ext) : M A :=
  fun w => let (a, e) := f (ext w) in
           Some (a, {| _ffs := _ffs w;
                       _ffs_mutex := _ffs_mutex w;
                       errno_res := errno_res w;
                       ext := e |}).

(** A call of an engine entry point, which also sees the volume table. *)
Definition engine {A : Type}
    (f : list (option (BlockDevice Ext)) -> Ext -> A * Ext) : M A :=
  fun w => on_ext (f (_ffs w)) w.

Definition fat_filesystem_set_errno (res : Z) : M unit :=
  fun w => Some (tt, {| _ffs := _ffs w;
                        _ffs_mutex := _ffs_mutex w;
                        errno_res := res;
                        ext := ext w |}).

(** [FATFileSystem::lock] and [unlock], on the recursive mutex. *)
Definition lock : M unit :=
  fun w => Some (tt, {| _ffs := _ffs w;
                        _ffs_mutex := S (_ffs_mutex w);
                        errno_res := errno_res w;
                        ext := ext w |}).

Definition unlock : M unit :=
  fun w => Some (tt, {| _ffs := _ffs w;
                        _ffs_mutex := Nat.pred (_ffs_mutex w);
                        errno_res := errno_res w;
                        ext := ext w |}).

(** ** Integer conversions *)

(** Conversion to [bd_size_t] / [bd_addr_t], to [DWORD] and to [BYTE]. *)
Definition to_bd (x : Z) : Z := x mod 2 ^ bd_bits.
Definition to_DWORD (x : Z) : Z := x mod 2 ^ DWORD_bits.
Definition to_BYTE (x : Z) : Z := x mod 256.

(** The product of a sector number or count with a [bd_size_t], as passed to
    a [bd_addr_t] or [bd_size_t] parameter. *)
Definition bd_mul (a b : Z) : Z := to_bd (a * b).

(** ** The driver callbacks (diskio) *)

Definition disk_status (pdrv : Z) : M DRESULT :=
  ret RES_OK.

Definition disk_initialize (pdrv : Z) : M Z :=
  bd <- ffs_deref pdrv ;;
  err <- on_ext (init bd) ;;
  ret (to_BYTE err).

Definition disk_read (pdrv sector count : Z) : M (DRESULT * list Byte.byte) :=
  bd0 <- ffs_deref pdrv ;;
  let ssize := get_write_size bd0 in
  bd <- ffs_deref pdrv ;;
  r <- on_ext (fun e => let '(err, buff, e') :=
                          read bd (bd_mul sector ssize) (bd_mul count ssize) e
                        in ((err, buff), e')) ;;
  ret (if fst r =? 0 then RES_OK else RES_PARERR, snd r).

Definition disk_write (pdrv : Z) (buff : list Byte.byte) (sector count : Z)
    : M DRESULT :=
  bd0 <- ffs_deref pdrv ;;
  let ssize := get_write_size bd0 in
  bd <- ffs_deref pdrv ;;
  err <- on_ext (write bd buff (bd_mul sector ssize) (bd_mul count ssize)) ;;
  ret (if err =? 0 then RES_OK else RES_PARERR).

(** [disk_ioctl] returns its result code and what it stores through [buff]
    ([None]: nothing stored).  The [switch] tests the labels in the order
    written; C requires them distinct.  A zero write size makes the division
    undefined. *)
Definition disk_ioctl (pdrv cmd : Z) : M (DRESULT * option Z) :=
  if cmd =? CTRL_SYNC then
    slot <- ffs_at pdrv ;;
    match slot with
    | None => ret (RES_NOTRDY, None)
    | Some _ => ret (RES_OK, None)
    end
  else if cmd =? GET_SECTOR_COUNT then
    slot <- ffs_at pdrv ;;
    match slot with
    | None => ret (RES_NOTRDY, None)
    | Some _ =>
        bd1 <- ffs_deref pdrv ;;
        bd2 <- ffs_deref pdrv ;;
        if get_write_size bd2 =? 0 then undefined
        else ret (RES_OK, Some (to_DWORD (size bd1 / get_write_size bd2)))
    end
  else if cmd =? GET_SECTOR_SIZE then
    slot <- ffs_at pdrv ;;
    match slot with
    | None => ret (RES_NOTRDY, None)
    | Some _ =>
        bd <- ffs_deref pdrv ;;
        ret (RES_OK, Some (to_DWORD (get_write_size bd)))
    end
  else if cmd =? GET_BLOCK_SIZE then
    ret (RES_OK, Some 1)
  else
    ret (RES_PARERR, None).

(** ** The filesystem front end *)

(** [_fsid[0] = '0' + _id; _fsid[1] = '\0']. *)
Definition fsid_of (i : nat) : string :=
  String (ascii_of_nat (48 + i)) EmptyString.

(** The body of the loop of [mount] for a free slot [i]. *)
Definition mount_at (i : nat) (this : FATFileSystem)
    (bd : BlockDevice Ext) (force : bool) : M (Z * FATFileSystem) :=
  let this1 := {| _id := Z.of_nat i; _fsid := _fsid this |} in
  ffs_set (_id this1) (Some bd) ;;
  let this2 := {| _id := _id this1; _fsid := fsid_of i |} in
  res <- engine (f_mount true (_fsid this2) (Z.b2z force)) ;;
  fat_filesystem_set_errno res ;;
  unlock ;;
  ret (if res =? 0 then 0 else -1, this2).

(** [for (int i = 0; i < _VOLUMES; i++)], with [n] iterations left from
    [i], followed by the statements after the loop. *)
Fixpoint mount_scan (n i : nat) (this : FATFileSystem)
    (bd : BlockDevice Ext) (force : bool) : M (Z * FATFileSystem) :=
  match n with
  | O => unlock ;; ret (-1, this)
  | S n' =>
      slot <- ffs_at (Z.of_nat i) ;;
      match slot with
      | None => mount_at i this bd force
      | Some _ => mount_scan n' (S i) this bd force
      end
  end.

Definition mount (this : FATFileSystem) (bd : BlockDevice Ext) (force : bool)
    : M (Z * FATFileSystem) :=
  lock ;;
  if negb (_id this =? -1) then
    unlock ;; ret (-1, this)
  else
    mount_scan _VOLUMES 0 this bd force.

Definition unmount (this : FATFileSystem) : M (Z * FATFileSystem) :=
  lock ;;
  if _id this =? -1 then
    unlock ;; ret (-1, this)
  else
    res <- engine (f_mount false (_fsid this) 0) ;;
    fat_filesystem_set_errno res ;;
    ffs_set (_id this) None ;;
    let this1 := {| _id := -1; _fsid := _fsid this |} in
    unlock ;;
    ret (if res =? 0 then 0 else -1, this1).

Definition sync (this : FATFileSystem) : M Z :=
  lock ;;
  if _id this =? -1 then
    unlock ;; ret (-1)
  else
    fat_filesystem_set_errno FR_OK ;;
    unlock ;;
    ret 0.

(** [format] works on a local object [fs], constructed unmounted with the
    indeterminate label [fsid0] and destroyed on every return ([~FATFileSystem]
    calls [unmount]). *)
Definition format (fsid0 : string) (bd : BlockDevice Ext) (allocation_unit : Z)
    : M Z :=
  let fs := {| _id := -1; _fsid := fsid0 |} in
  r <- mount fs bd false ;;
  let (err, fs) := r in
  if negb (err =? 0) then
    unmount fs ;; ret (-1)
  else
    lock ;;
    res <- engine (f_mkfs (_fsid fs) 0 allocation_unit) ;;
    fat_filesystem_set_errno res ;;
    unlock ;;
    r <- unmount fs ;;
    let (err, fs) := r in
    if negb (err =? 0) then
      unmount fs ;; ret (-1)
    else
      unmount fs ;; ret (if res =? 0 then 0 else -1).

(** The access part of the open mode (the first [if] chain of [open]). *)
Definition access_mode (flags : Z) : Z :=
  if negb (Z.land flags O_RDWR =? 0) then to_BYTE (Z.lor FA_READ FA_WRITE)
  else if negb (Z.land flags O_WRONLY =? 0) then to_BYTE FA_WRITE
  else to_BYTE FA_READ.

(** [openmode] as handed to [f_open]. *)
Definition open_mode (flags : Z) : Z :=
  let openmode := access_mode flags in
  if negb (Z.land flags O_CREAT =? 0) then
    if negb (Z.land flags O_TRUNC =? 0)
    then to_BYTE (Z.lor openmode FA_CREATE_ALWAYS)
    else to_BYTE (Z.lor openmode FA_OPEN_ALWAYS)
  else openmode.

(** [sprintf(n, "%s:/%s", _fsid, name)]; [n] has 64 bytes, the terminator
    included. *)
Definition open_path (this : FATFileSystem) (name : string) : string :=
  (_fsid this ++ ":/" ++ name)%string.

Definition open (this : FATFileSystem) (name : string) (flags : Z)
    : M (option (FATFileHandle FIL)) :=
  lock ;;
  let n := open_path this name in
  if (64 <=? String.length n)%nat then undefined
  else
    let openmode := open_mode flags in
    r <- engine (fun t e => let '(res, fh, e') := f_open n openmode t e
                            in ((res, fh), e')) ;;
    let (res, fh) := r in
    fat_filesystem_set_errno res ;;
    if negb (res =? 0) then
      unlock ;; ret None
    else
      fh <- (if negb (Z.land flags O_APPEND =? 0)
             then engine (fun t e => let '(_, fh', e') := f_lseek fh (fsize fh) t e
                                     in (fh', e'))
             else ret fh) ;;
      unlock ;;
      ret (Some {| _fh := fh |}).

End Adapter.

(** ** The rest of the file: time stamp, construction, path operations *)

(** The fields of [struct tm] that [get_fattime] reads. *)
Record tm := {
  tm_sec : Z;
  tm_min : Z;
  tm_hour : Z;
  tm_mday : Z;
  tm_mon : Z;
  tm_year : Z
}.

(** Further values the source takes from headers: the default of [mount]'s
    [force] argument ([FATFileSystem.h]), whether [TOOLCHAIN_GCC] is defined,
    the attribute bits of [ff.h], the mode bits of [sys/stat.h], and the
    conversions to [off_t] and [mode_t]. *)
Class FrontHeaders := {
  mount_force_default : bool;
  TOOLCHAIN_GCC : bool;
  AM_RDO : Z;
  AM_DIR : Z;
  S_IFDIR : Z;
  S_IFREG : Z;
  S_IRUSR : Z;
  S_IXUSR : Z;
  S_IRGRP : Z;
  S_IXGRP : Z;
  S_IROTH : Z;
  S_IXOTH : Z;
  S_IRWXU : Z;
  S_IRWXG : Z;
  S_IRWXO : Z;
  to_off_t : Z -> Z;
  to_mode_t : Z -> Z
}.

(** The fields of the engine's [FILINFO] that [stat] reads, and the fields of
    [struct stat] it writes. *)
Record FILINFO := {
  FILINFO_fsize : Z;
  fattrib : Z
}.

Record struct_stat := {
  st_size : Z;
  st_mode : Z
}.

(** The engine's entry points for paths; [DIR] is its open-directory object
    ([FATFS_DIR]).  [f_stat] yields the [FILINFO] it leaves in the zeroed
    object it is given. *)
Class PathEngine (Ext DIR : Type) := {
  f_unlink : string -> list (option (BlockDevice Ext)) -> Ext -> Z * Ext;
  f_rename : string -> string -> list (option (BlockDevice Ext)) -> Ext -> Z * Ext;
  f_opendir : string -> list (option (BlockDevice Ext)) -> Ext -> Z * DIR * Ext;
  f_mkdir : string -> list (option (BlockDevice Ext)) -> Ext -> Z * Ext;
  f_stat : string -> list (option (BlockDevice Ext)) -> Ext -> Z * FILINFO * Ext
}.

(** What [opendir] wraps around the engine's directory object. *)
Record FATDirHandle (DIR : Type) := { _dir : DIR }.
Arguments _dir {DIR} _.

Section Time.
Context {hdr : Headers}.

(** [x << n] on a [DWORD]. *)
Definition DWORD_shl (x n : Z) : Z := to_DWORD (Z.shiftl x n).

(** [get_fattime], as a function of the broken-down local time [ptm] that
    [time] and [localtime] of the C library hand it. *)
Definition get_fattime (ptm : tm) : Z :=
  Z.lor (Z.lor (Z.lor (Z.lor (Z.lor
    (DWORD_shl (to_DWORD (tm_year ptm - 80)) 25)
    (DWORD_shl (to_DWORD (tm_mon ptm + 1)) 21))
    (DWORD_shl (to_DWORD (tm_mday ptm)) 16))
    (DWORD_shl (to_DWORD (tm_hour ptm)) 11))
    (DWORD_shl (to_DWORD (tm_min ptm)) 5))
    (to_DWORD (Z.quot (tm_sec ptm) 2)).

End Time.

Section FrontEnd.
Context {hdr : Headers} {fhdr : FrontHeaders} {Ext FIL DIR : Type}
        {eng : Engine Ext FIL} {peng : PathEngine Ext DIR}.

Notation "x <- m ;; k" := (bind m (fun x => k))
  (at level 100, m at next level, right associativity).
Notation "m ;; k" := (bind m (fun _ => k))
  (at level 100, right associativity).

(** [FATFileSystem(n, bd)]: [_id(-1)], the label left as the storage holds
    it ([fsid0]), then [mount(bd)] when [bd] is not null; the result of that
    [mount] is dropped. *)
Definition FATFileSystem_new (fsid0 : string) (bd : option (BlockDevice Ext))
    : M (Ext := Ext) FATFileSystem :=
  let this := {| _id := -1; _fsid := fsid0 |} in
  match bd with
  | Some bd => r <- mount this bd mount_force_default ;; ret (snd r)
  | None => ret this
  end.

(** [~FATFileSystem()]. *)
Definition FATFileSystem_delete (this : FATFileSystem) : M (Ext := Ext) unit :=
  unmount this ;; ret tt.

Definition remove (this : FATFileSystem) (filename : string) : M (Ext := Ext) Z :=
  lock ;;
  res <- engine (f_unlink filename) ;;
  fat_filesystem_set_errno res ;;
  if negb (res =? 0) then
    unlock ;; ret (-1)
  else
    unlock ;; ret 0.

Definition rename (this : FATFileSystem) (oldname newname : string)
    : M (Ext := Ext) Z :=
  lock ;;
  res <- engine (f_rename oldname newname) ;;
  fat_filesystem_set_errno res ;;
  if negb (res =? 0) then
    unlock ;; ret (-1)
  else
    unlock ;; ret 0.

Definition opendir (this : FATFileSystem) (name : string)
    : M (Ext := Ext) (option (FATDirHandle DIR)) :=
  lock ;;
  r <- engine (fun t e => let '(res, dir, e') := f_opendir name t e
                          in ((res, dir), e')) ;;
  let (res, dir) := r in
  fat_filesystem_set_errno res ;;
  if negb (res =? 0) then
    unlock ;; ret None
  else
    unlock ;; ret (Some {| _dir := dir |}).

Definition mkdir (this : FATFileSystem) (name : string) (mode : Z)
    : M (Ext := Ext) Z :=
  lock ;;
  res <- engine (f_mkdir name) ;;
  fat_filesystem_set_errno res ;;
  unlock ;;
  ret (if res =? 0 then 0 else -1).

(** The two [|=] on [st->st_mode], starting from 0. *)
Definition stat_mode (attrib : Z) : Z :=
  let m0 := to_mode_t 0 in
  let m1 := to_mode_t (Z.lor m0 (if negb (Z.land attrib AM_DIR =? 0)
                                 then S_IFDIR else S_IFREG)) in
  to_mode_t
    (Z.lor m1
       (if negb (Z.land attrib AM_RDO =? 0)
        then Z.lor (Z.lor (Z.lor (Z.lor (Z.lor S_IRUSR S_IXUSR) S_IRGRP)
                             S_IXGRP) S_IROTH) S_IXOTH
        else Z.lor (Z.lor S_IRWXU S_IRWXG) S_IRWXO)).

(** [stat] receives what [st] points to and returns what it points to
    afterwards. *)
Definition stat (this : FATFileSystem) (name : string) (st : struct_stat)
    : M (Ext := Ext) (Z * struct_stat) :=
  lock ;;
  r <- engine (fun t e => let '(res, f, e') := f_stat name t e
                          in ((res, f), e')) ;;
  let (res, f) := r in
  fat_filesystem_set_errno res ;;
  if negb (res =? 0) then
    unlock ;; ret (-1, st)
  else
    let st1 := if TOOLCHAIN_GCC
               then {| st_size := to_off_t (FILINFO_fsize f);
                       st_mode := stat_mode (fattrib f) |}
               else st in
    unlock ;;
    ret (if res =? 0 then 0 else -1, st1).

(** An instance owns nothing, or the occupied slot its [_id] names. *)
Definition owns_slot (this : FATFileSystem) (w : World Ext) : Prop :=
  _id this = -1 \/
  exists (i : nat) bd,
    _id this = Z.of_nat i /\ (i < _VOLUMES)%nat /\
    _ffs w !! i = Some (Some bd).

End FrontEnd.

(** ** What the theorems ask of the header values *)

Section HeaderFacts.
Context {hdr : Headers}.

(** The [case] labels of [disk_ioctl] are pairwise different (C rejects a
    [switch] with a repeated label). *)
Definition ioctl_labels_distinct : Prop :=
  NoDup [CTRL_SYNC; GET_SECTOR_COUNT; GET_SECTOR_SIZE; GET_BLOCK_SIZE].

(** The engine's open-mode bits fit the [BYTE] they are stored in. *)
Definition open_modes_are_bytes : Prop :=
  Forall (fun x => 0 <= x < 256)
         [FA_READ; FA_WRITE; FA_CREATE_ALWAYS; FA_OPEN_ALWAYS].

(** The access bits and the creation bits of the engine do not overlap. *)
Definition create_bits_apart : Prop :=
  Z.land (Z.lor FA_READ FA_WRITE) (Z.lor FA_CREATE_ALWAYS FA_OPEN_ALWAYS) = 0.

(** [O_TRUNC] shares no bit with the other flags [open] tests. *)
Definition trunc_bit_apart : Prop :=
  Z.land O_TRUNC (Z.lor (Z.lor O_RDWR O_WRONLY) (Z.lor O_CREAT O_APPEND)) = 0.

End HeaderFacts.

(** ** SlicingBlockDevice *)

(** Modelled from the spec: [SlicingBlockDevice.h] is not among the sources
    (only its test is).  A slice holds the underlying device and the resolved
    bounds [_start] and [_stop] ([_stop] exclusive). *)
Record SlicingBlockDevice (Ext : Type) := {
  _bd : BlockDevice Ext;
  _start : Z;
  _stop : Z
}.
Arguments _bd {Ext} _.
Arguments _start {Ext} _.
Arguments _stop {Ext} _.

Section Slicing.
Context {Ext : Type}.
(** The non-zero code of a bounds error. *)
Variable bounds_error : Z.

(** Modelled from the spec: a negative bound means that many bytes before
    the end of the underlying device. *)
Definition resolve_bound (usize b : Z) : Z :=
  if b <? 0 then usize + b else b.

(** Modelled from the spec: the invariant [0 <= start < end <= size] of the
    resolved bounds. *)
Definition slice_bounds_ok (usize start stop : Z) : bool :=
  (0 <=? start) && (start <? stop) && (stop <=? usize).

(** Modelled from the spec: construction from a pair of bounds; bounds that
    break the invariant are a construction-time error. *)
Definition Slice (bd : BlockDevice Ext) (start stop : Z)
    : option (SlicingBlockDevice Ext) :=
  let s := resolve_bound (size bd) start in
  let e := resolve_bound (size bd) stop in
  if slice_bounds_ok (size bd) s e
  then Some {| _bd := bd; _start := s; _stop := e |}
  else None.

(** Modelled from the spec: construction from a single negative [start],
    meaning the last [|start|] bytes of the underlying device. *)
Definition Slice_last (bd : BlockDevice Ext) (start : Z)
    : option (SlicingBlockDevice Ext) :=
  if start <? 0 then
    let s := size bd - Z.abs start in
    let e := size bd in
    if slice_bounds_ok (size bd) s e
    then Some {| _bd := bd; _start := s; _stop := e |}
    else None
  else None.

(** Modelled from the spec: [size()] reports [end - start]. *)
Definition slice_size (s : SlicingBlockDevice Ext) : Z :=
  _stop s - _start s.

(** Modelled from the spec: [read] and [write] add [start] to the address
    and forward; a request reaching past [end - start] fails with a bounds
    error without touching the underlying device. *)
Definition slice_read (s : SlicingBlockDevice Ext) (addr len : Z)
    : Ext -> Z * list Byte.byte * Ext :=
  if addr + len <=? slice_size s
  then read (_bd s) (addr + _start s) len
  else fun e => (bounds_error, [], e).

Definition slice_write (s : SlicingBlockDevice Ext) (buff : list Byte.byte)
    (addr len : Z) : Ext -> Z * Ext :=
  if addr + len <=? slice_size s
  then write (_bd s) buff (addr + _start s) len
  else fun e => (bounds_error, e).

(** Modelled from the spec: the slice is itself a block device; the write
    size passes through from the underlying device. *)
Definition slice_device (s : SlicingBlockDevice Ext) : BlockDevice Ext :=
  {| init := init (_bd s);
     read := slice_read s;
     write := slice_write s;
     size := slice_size s;
     get_write_size := get_write_size (_bd s) |}.

End Slicing.

(** ** HeapBlockDevice *)

(** Modelled from the spec: [HeapBlockDevice.h] is not among the sources.
    The device owns [size] bytes, here the whole of [Ext]; [read] and
    [write] are bounds-checked copies; -1 stands for its error code. *)
Definition heap_in_bounds (dsize addr len : Z) : bool :=
  (0 <=? addr) && (0 <=? len) && (addr + len <=? dsize).

Definition HeapBlockDevice (dsize block : Z) : BlockDevice (list Byte.byte) :=
  {| init := fun m => (0, m);
     read := fun addr len m =>
       if heap_in_bounds dsize addr len
       then (0, take (Z.to_nat len) (drop (Z.to_nat addr) m), m)
       else (-1, [], m);
     write := fun buff addr len m =>
       if heap_in_bounds dsize addr len
       then (0, take (Z.to_nat addr) m ++ take (Z.to_nat len) buff
                  ++ drop (Z.to_nat (addr + len)) m)
       else (-1, m);
     size := dsize;
     get_write_size := block |}.

(** ** A configuration to run the model on *)

(** The header values of FatFs R0.11 built with newlib for a 32-bit ARM
    target, with four volumes. *)
Definition arm_newlib : Headers :=
  {| _VOLUMES := 4;
     bd_bits := 64;
     DWORD_bits := 32;
     CTRL_SYNC := 0;
     GET_SECTOR_COUNT := 1;
     GET_SECTOR_SIZE := 2;
     GET_BLOCK_SIZE := 3;
     O_WRONLY := 1;
     O_RDWR := 2;
     O_APPEND := 8;
     O_CREAT := 512;
     O_TRUNC := 1024;
     FA_READ := 1;
     FA_WRITE := 2;
     FA_CREATE_ALWAYS := 8;
     FA_OPEN_ALWAYS := 16;
     FR_OK := 0 |}.

(** An engine whose every entry point answers [res] and touches nothing; an
    open file is its size and its position, and [f_lseek] sets the position. *)
Definition answering (res : Z) : Engine (list Byte.byte) (Z * Z) :=
  {| f_mount := fun _ _ _ _ e => (res, e);
     f_mkfs := fun _ _ _ _ e => (res, e);
     f_open := fun _ _ _ e => (res, (2048, 0), e);
     f_lseek := fun fh ofs _ e => (res, (fst fh, ofs), e);
     fsize := fst |}.

(** A RAM disk of four 512-byte blocks and its zeroed memory. *)
Definition ram_disk : BlockDevice (list Byte.byte) := HeapBlockDevice 2048 512.
Definition ram_zero : list Byte.byte := repeat Byte.x00 2048.

(** A world with the given table, the mutex free and the RAM disk zeroed. *)
Definition world_of (t : list (option (BlockDevice (list Byte.byte))))
    : World (list Byte.byte) :=
  {| _ffs := t; _ffs_mutex := 0; errno_res := 0; ext := ram_zero |}.

Definition unmounted : FATFileSystem := {| _id := -1; _fsid := "" |}.

(** ** Notions the further properties are stated with *)

(** The broken-down times [get_fattime] can encode: the years 1980 to 2107
    and the C ranges of the other fields. *)
Definition tm_in_range (t : tm) : Prop :=
  80 <= tm_year t <= 207 /\ 0 <= tm_mon t <= 11 /\ 1 <= tm_mday t <= 31 /\
  0 <= tm_hour t <= 23 /\ 0 <= tm_min t <= 59 /\ 0 <= tm_sec t <= 60.

(** [a] is before [b], field by field from the year down to the second. *)
Definition tm_earlier (a b : tm) : Prop :=
  tm_year a < tm_year b \/ tm_year a = tm_year b /\
  (tm_mon a < tm_mon b \/ tm_mon a = tm_mon b /\
   (tm_mday a < tm_mday b \/ tm_mday a = tm_mday b /\
    (tm_hour a < tm_hour b \/ tm_hour a = tm_hour b /\
     (tm_min a < tm_min b \/ tm_min a = tm_min b /\
      tm_sec a < tm_sec b)))).

(** [w'] has the volume table and the mutex depth of [w]. *)
Definition table_and_lock_kept {Ext : Type} (w w' : World Ext) : Prop :=
  _ffs w' = _ffs w /\ _ffs_mutex w' = _ffs_mutex w.

(** The world after a front-end call that only consulted the engine: the
    engine's result recorded for errno and [ext] as the engine left it. *)
Definition after_engine {Ext : Type} (w : World Ext) (res : Z) (e : Ext)
    : World Ext :=
  {| _ffs := _ffs w; _ffs_mutex := _ffs_mutex w; errno_res := res; ext := e |}.

(** What the mode theorem asks of [sys/stat.h]: the mode bits are 16-bit
    values and the conversion to [mode_t] keeps such values. *)
Definition mode_bits_fit {fhdr : FrontHeaders} : Prop :=
  (forall x, 0 <= x < 2 ^ 16 -> to_mode_t x = x) /\
  Forall (fun x => 0 <= x < 2 ^ 16)
         [S_IFDIR; S_IFREG; S_IRUSR; S_IXUSR; S_IRGRP; S_IXGRP; S_IROTH;
          S_IXOTH; S_IRWXU; S_IRWXG; S_IRWXO].

(** [w'] differs from [w] in [ext] at most. *)
Definition only_ext_changed {Ext : Type} (w w' : World Ext) : Prop :=
  _ffs w' = _ffs w /\ _ffs_mutex w' = _ffs_mutex w /\
  errno_res w' = errno_res w.

(** Further sample values: newlib's [sys/stat.h] and the attribute bits of
    FatFs, a 32-bit [off_t] and [mode_t], GCC as the toolchain. *)
Definition newlib_front : FrontHeaders :=
  {| mount_force_default := false;
     TOOLCHAIN_GCC := true;
     AM_RDO := 1;
     AM_DIR := 16;
     S_IFDIR := 16384;
     S_IFREG := 32768;
     S_IRUSR := 256;
     S_IXUSR := 64;
     S_IRGRP := 32;
     S_IXGRP := 8;
     S_IROTH := 4;
     S_IXOTH := 1;
     S_IRWXU := 448;
     S_IRWXG := 56;
     S_IRWXO := 7;
     to_off_t := fun x => (x + 2 ^ 31) mod 2 ^ 32 - 2 ^ 31;
     to_mode_t := fun x => x mod 2 ^ 32 |}.

(** Path entry points that answer [res] and touch nothing; [f_stat] finds a
    read-only directory entry of size 100. *)
Definition answering_paths (res : Z) : PathEngine (list Byte.byte) unit :=
  {| f_unlink := fun _ _ e => (res, e);
     f_rename := fun _ _ _ e => (res, e);
     f_opendir := fun _ _ e => (res, tt, e);
     f_mkdir := fun _ _ e => (res, e);
     f_stat := fun _ _ e =>
       (res, {| FILINFO_fsize := 100; fattrib := 17 |}, e) |}.

(** 25 December 2016, 13:37:42. *)
Definition xmas_2016 : tm :=
  {| tm_sec := 42; tm_min := 37; tm_hour := 13;
     tm_mday := 25; tm_mon := 11; tm_year := 116 |}.

(** * Properties *)

Section AdapterFacts.
Context {hdr : Headers} {Ext FIL : Type} {eng : Engine Ext FIL}.
Implicit Types (w : World Ext) (this : FATFileSystem) (bd : BlockDevice Ext).

(** From "[x] is not in [l]" to [x <> y] for a member [y] of [l]. *)
Ltac label_ne H :=
  let E := fresh in
  intros E; apply H; rewrite E;
  repeat first [apply list_elem_of_here | apply list_elem_of_further].

Lemma world_eta w :
  {| _ffs := _ffs w; _ffs_mutex := _ffs_mutex w;
     errno_res := errno_res w; ext := ext w |} = w.
Proof. destruct w; reflexivity. Qed.

(** ** Stepping through a computation *)

Lemma bind_Some {A B : Type} (m : M A) (k : A -> M B) w a w' :
  m w = Some (a, w') -> bind m k w = k a w'.
Proof. intros H. unfold bind. rewrite H. reflexivity. Qed.

Lemma engine_run {A : Type}
    (f : list (option (BlockDevice Ext)) -> Ext -> A * Ext) w a e :
  f (_ffs w) (ext w) = (a, e) ->
  engine f w = Some (a, {| _ffs := _ffs w; _ffs_mutex := _ffs_mutex w;
                           errno_res := errno_res w; ext := e |}).
Proof. intros H. unfold engine, on_ext. rewrite H. reflexivity. Qed.

(** ** Reading and writing the table *)

Lemma ffs_at_slot w (pdrv : Z) slot :
  0 <= pdrv -> _ffs w !! Z.to_nat pdrv = Some slot ->
  ffs_at pdrv w = Some (slot, w).
Proof.
  intros Hp Hl. unfold ffs_at.
  destruct (Z.ltb_spec pdrv 0) as [Hneg | _]; [lia |].
  rewrite Hl. reflexivity.
Qed.

Lemma ffs_at_nat w (i : nat) slot :
  _ffs w !! i = Some slot -> ffs_at (Z.of_nat i) w = Some (slot, w).
Proof.
  intros Hl. apply ffs_at_slot; [lia |]. rewrite Nat2Z.id. exact Hl.
Qed.

Lemma ffs_deref_slot w (pdrv : Z) bd :
  0 <= pdrv -> _ffs w !! Z.to_nat pdrv = Some (Some bd) ->
  ffs_deref pdrv w = Some (bd, w).
Proof.
  intros Hp Hl. unfold ffs_deref, bind.
  rewrite (ffs_at_slot w pdrv (Some bd) Hp Hl). reflexivity.
Qed.

Lemma ffs_set_nat w (i : nat) v :
  (i < length (_ffs w))%nat ->
  ffs_set (Z.of_nat i) v w =
  Some (tt, {| _ffs := <[i := v]> (_ffs w); _ffs_mutex := _ffs_mutex w;
               errno_res := errno_res w; ext := ext w |}).
Proof.
  intros Hi. unfold ffs_set. rewrite Nat2Z.id.
  destruct (Z.leb_spec 0 (Z.of_nat i)) as [_ | Hneg]; [| lia].
  destruct (Nat.ltb_spec i (length (_ffs w))) as [_ | Hge]; [| lia].
  reflexivity.
Qed.

(** ** [mount] and [unmount], path by path *)

(** The scan of [mount] over a run of occupied slots ends after the loop. *)
Lemma mount_scan_full n : forall i this bd force w,
  (forall j, (i <= j < i + n)%nat -> exists d, _ffs w !! j = Some (Some d)) ->
  mount_scan n i this bd force w =
  Some ((-1, this),
        {| _ffs := _ffs w; _ffs_mutex := Nat.pred (_ffs_mutex w);
           errno_res := errno_res w; ext := ext w |}).
Proof.
  induction n as [| n IH]; intros i this bd force w Hocc.
  - reflexivity.
  - destruct (Hocc i) as [d Hd]; [lia |].
    cbn [mount_scan]. unfold bind at 1.
    rewrite (ffs_at_nat w i _ Hd).
    apply IH. intros j Hj. apply Hocc. lia.
Qed.

(** The scan stops at the first free slot [i] and runs the loop body there. *)
Lemma mount_scan_free n : forall k i this bd force w,
  (k <= i < k + n)%nat ->
  _ffs w !! i = Some None ->
  (forall j, (k <= j < i)%nat -> exists d, _ffs w !! j = Some (Some d)) ->
  mount_scan n k this bd force w = mount_at i this bd force w.
Proof.
  induction n as [| n IH]; intros k i this bd force w Hi Hfree Hocc.
  - lia.
  - cbn [mount_scan]. unfold bind at 1.
    destruct (Nat.eq_dec k i) as [-> | Hne].
    + rewrite (ffs_at_nat w i _ Hfree). reflexivity.
    + destruct (Hocc k) as [d Hd]; [lia |].
      rewrite (ffs_at_nat w k _ Hd).
      apply IH; [lia | exact Hfree |].
      intros j Hj. apply Hocc. lia.
Qed.

Lemma mount_at_run i this bd force w res e' :
  (i < length (_ffs w))%nat ->
  f_mount true (fsid_of i) (Z.b2z force) (<[i := Some bd]> (_ffs w)) (ext w)
    = (res, e') ->
  mount_at i this bd force w =
  Some ((if res =? 0 then 0 else -1, {| _id := Z.of_nat i; _fsid := fsid_of i |}),
        {| _ffs := <[i := Some bd]> (_ffs w);
           _ffs_mutex := Nat.pred (_ffs_mutex w);
           errno_res := res; ext := e' |}).
Proof.
  intros Hi Hm. unfold mount_at, bind. cbn [_id _fsid].
  rewrite (ffs_set_nat w i (Some bd) Hi).
  unfold engine, on_ext. cbn [_ffs ext _ffs_mutex errno_res].
  rewrite Hm. reflexivity.
Qed.

Lemma mount_first_free this bd force w i res e' :
  _id this = -1 ->
  length (_ffs w) = _VOLUMES ->
  _ffs w !! i = Some None ->
  (forall j, (j < i)%nat -> exists d, _ffs w !! j = Some (Some d)) ->
  f_mount true (fsid_of i) (Z.b2z force) (<[i := Some bd]> (_ffs w)) (ext w)
    = (res, e') ->
  mount this bd force w =
  Some ((if res =? 0 then 0 else -1, {| _id := Z.of_nat i; _fsid := fsid_of i |}),
        {| _ffs := <[i := Some bd]> (_ffs w);
           _ffs_mutex := _ffs_mutex w;
           errno_res := res; ext := e' |}).
Proof.
  intros Hid Hlen Hfree Hocc Hm.
  assert (Hi : (i < length (_ffs w))%nat) by (eapply lookup_lt_Some; exact Hfree).
  unfold mount, bind, lock. rewrite Hid, Z.eqb_refl. cbn [negb].
  rewrite (mount_scan_free _VOLUMES 0 i); cbn [_ffs];
    [| lia | exact Hfree | intros j Hj; apply Hocc; lia].
  rewrite (mount_at_run i this bd force _ res e'); cbn [_ffs ext];
    [reflexivity | exact Hi | exact Hm].
Qed.

Lemma unmount_run this w (i : nat) res e' :
  _id this = Z.of_nat i ->
  (i < length (_ffs w))%nat ->
  f_mount false (_fsid this) 0 (_ffs w) (ext w) = (res, e') ->
  unmount this w =
  Some ((if res =? 0 then 0 else -1, {| _id := -1; _fsid := _fsid this |}),
        {| _ffs := <[i := None]> (_ffs w);
           _ffs_mutex := _ffs_mutex w;
           errno_res := res; ext := e' |}).
Proof.
  intros Hid Hi Hm. unfold unmount, bind, lock. rewrite Hid.
  destruct (Z.eqb_spec (Z.of_nat i) (-1)) as [Hneg | _]; [lia |].
  unfold engine, on_ext. cbn [_ffs ext _ffs_mutex errno_res].
  rewrite Hm. unfold fat_filesystem_set_errno.
  cbn [_ffs ext _ffs_mutex errno_res].
  rewrite ffs_set_nat; cbn [_ffs ext _ffs_mutex errno_res];
    [reflexivity | exact Hi].
Qed.

(** In a table without a null slot every index holds a device. *)
Lemma full_table_occupied (t : list (option (BlockDevice Ext))) (j : nat) :
  Forall (fun slot => slot <> None) t ->
  (j < length t)%nat ->
  exists d, t !! j = Some (Some d).
Proof.
  intros Hall Hj.
  destruct (lookup_lt_is_Some_2 t j Hj) as [slot Hslot].
  rewrite Forall_lookup in Hall. specialize (Hall j slot Hslot).
  destruct slot as [d |]; [exists d; exact Hslot | contradiction].
Qed.

(** Over occupied slots [0 .. _VOLUMES - 1], [mount] on an unmounted
    instance runs the whole scan, unlocks and returns. *)
Lemma mount_occupied_run this bd force w :
  _id this = -1 ->
  (forall j, (j < _VOLUMES)%nat -> exists d, _ffs w !! j = Some (Some d)) ->
  mount this bd force w = Some ((-1, this), w).
Proof.
  intros Hid Hocc.
  unfold mount, bind, lock. rewrite Hid, Z.eqb_refl. cbn [negb].
  rewrite mount_scan_full; cbn [_ffs _ffs_mutex errno_res ext Nat.pred].
  - rewrite world_eta. reflexivity.
  - intros j Hj. apply Hocc. lia.
Qed.

Lemma unmount_unmounted_run this w :
  _id this = -1 -> unmount this w = Some ((-1, this), w).
Proof.
  intros Hid. unfold unmount, bind, lock.
  rewrite Hid, Z.eqb_refl. cbn. rewrite world_eta. reflexivity.
Qed.

(** A table is full, or it has a first free slot. *)
Lemma first_free_or_full (t : list (option (BlockDevice Ext))) :
  Forall (fun slot => slot <> None) t \/
  exists i : nat,
    t !! i = Some None /\
    forall j, (j < i)%nat -> exists d, t !! j = Some (Some d).
Proof.
  induction t as [| slot t IH].
  - left. constructor.
  - destruct slot as [d |].
    + destruct IH as [Hfull | (i & Hfree & Hocc)].
      * left. constructor; [discriminate | exact Hfull].
      * right. exists (S i). split; [exact Hfree |].
        intros j Hj. destruct j as [| j]; [exists d; reflexivity |].
        apply Hocc. lia.
    + right. exists 0%nat. split; [reflexivity |]. intros j Hj. lia.
Qed.

(** ** The claims about the adapter *)

(** C1: on a mounted instance (its [_id] is a slot index of the table),
    [unmount] empties that slot and resets [_id] to -1 whatever the engine's
    unmount call [f_mount(NULL, ...)] answers; the result is 0 exactly when
    the engine answered 0, and the other slots are untouched. *)
Theorem unmount_clears_slot this w (i : nat) res e' :
  _id this = Z.of_nat i ->
  (i < length (_ffs w))%nat ->
  f_mount false (_fsid this) 0 (_ffs w) (ext w) = (res, e') ->
  exists r this' w',
    unmount this w = Some ((r, this'), w') /\
    r = (if res =? 0 then 0 else -1) /\
    _id this' = -1 /\
    _ffs w' !! i = Some None /\
    (forall j, j <> i -> _ffs w' !! j = _ffs w !! j).
Proof.
  intros Hid Hi Hm.
  eexists _, _, _. split; [exact (unmount_run this w i res e' Hid Hi Hm) |].
  cbn [_id _ffs]. repeat split.
  - apply list_lookup_insert_eq. exact Hi.
  - intros j Hj. apply list_lookup_insert_ne. congruence.
Qed.

(** C2, as amended: when [mount] on an unmounted instance finds the first
    free slot [i], stores the device there and the engine's mount call fails,
    [mount] returns -1 with the device still in slot [i] and [_id] still [i];
    only a following [unmount] empties the slot again (the table is then the
    one before [mount]) and resets [_id]. *)
Theorem mount_engine_failure_keeps_slot this bd force w (i : nat) res e' :
  _id this = -1 ->
  length (_ffs w) = _VOLUMES ->
  _ffs w !! i = Some None ->
  (forall j, (j < i)%nat -> exists d, _ffs w !! j = Some (Some d)) ->
  f_mount true (fsid_of i) (Z.b2z force) (<[i := Some bd]> (_ffs w)) (ext w)
    = (res, e') ->
  res <> 0 ->
  exists this' w',
    mount this bd force w = Some ((-1, this'), w') /\
    _ffs w' !! i = Some (Some bd) /\
    _id this' = Z.of_nat i /\
    exists r this'' w'',
      unmount this' w' = Some ((r, this''), w'') /\
      _ffs w'' = _ffs w /\
      _id this'' = -1.
Proof.
  intros Hid Hlen Hfree Hocc Hm Hres.
  assert (Hi : (i < length (_ffs w))%nat) by (eapply lookup_lt_Some; exact Hfree).
  pose proof (mount_first_free this bd force w i res e' Hid Hlen Hfree Hocc Hm) as Hmount.
  destruct (Z.eqb_spec res 0) as [Hz | _]; [contradiction |].
  eexists _, _. split; [exact Hmount |]. cbn [_ffs _id].
  split; [apply list_lookup_insert_eq; exact Hi |].
  split; [reflexivity |].
  set (this' := {| _id := Z.of_nat i; _fsid := fsid_of i |}).
  set (w' := {| _ffs := <[i:=Some bd]> (_ffs w); _ffs_mutex := _ffs_mutex w;
                errno_res := res; ext := e' |}).
  destruct (f_mount false (_fsid this') 0 (_ffs w') (ext w')) as [res2 e2] eqn:Hu.
  eexists _, _, _. split.
  - apply (unmount_run this' w' i res2 e2); [reflexivity | | exact Hu].
    subst w'. cbn [_ffs]. rewrite length_insert. exact Hi.
  - subst this' w'. cbn [_ffs _id]. split; [| reflexivity].
    rewrite list_insert_insert_eq. apply list_insert_id. exact Hfree.
Qed.

(** C4: when every slot of the table is occupied, [mount] on an unmounted
    instance returns -1 and leaves the instance and the whole world (every
    slot of the table included) as they were. *)
Theorem mount_full_table_fails this bd force w :
  _id this = -1 ->
  length (_ffs w) = _VOLUMES ->
  Forall (fun slot => slot <> None) (_ffs w) ->
  mount this bd force w = Some ((-1, this), w).
Proof.
  intros Hid Hlen Hall.
  apply mount_occupied_run; [exact Hid |].
  intros j Hj. apply full_table_occupied; [exact Hall |].
  rewrite Hlen. exact Hj.
Qed.

(** C5, as amended: [sync] returns 0, after recording the engine's success
    code, on a mounted instance; on an unmounted one it returns -1 and
    changes nothing. *)
Theorem sync_result this w :
  sync this w =
  Some (if _id this =? -1
        then (-1, w)
        else (0, {| _ffs := _ffs w; _ffs_mutex := _ffs_mutex w;
                    errno_res := FR_OK; ext := ext w |})).
Proof.
  unfold sync, bind, lock.
  destruct (_id this =? -1); cbn; [rewrite world_eta |]; reflexivity.
Qed.

(** C9: [disk_status] answers [RES_OK] for every slot index and in every
    world, whether or not the slot holds a device, and touches nothing. *)
Theorem disk_status_always_ok (pdrv : Z) w :
  disk_status pdrv w = Some (RES_OK, w).
Proof. reflexivity. Qed.

(** C3: for a slot that holds a device, [disk_read] and [disk_write] call
    that device's [read] and [write] once, at address [sector * ssize] and
    with length [count * ssize] in [bd_size_t] arithmetic, where [ssize] is
    the device's [get_write_size()]; the result is [RES_OK] when the device
    answers 0 and [RES_PARERR] otherwise.  The products are the exact ones
    whenever they fit [bd_size_t]. *)
Theorem disk_transfer_uses_write_size (pdrv : Z) w bd (sector count : Z)
    (buff : list Byte.byte) :
  0 <= pdrv ->
  _ffs w !! Z.to_nat pdrv = Some (Some bd) ->
  (exists err data e',
      read bd (bd_mul sector (get_write_size bd))
              (bd_mul count (get_write_size bd)) (ext w) = (err, data, e') /\
      disk_read pdrv sector count w =
      Some ((if err =? 0 then RES_OK else RES_PARERR, data),
            {| _ffs := _ffs w; _ffs_mutex := _ffs_mutex w;
               errno_res := errno_res w; ext := e' |})) /\
  (exists err e',
      write bd buff (bd_mul sector (get_write_size bd))
                    (bd_mul count (get_write_size bd)) (ext w) = (err, e') /\
      disk_write pdrv buff sector count w =
      Some (if err =? 0 then RES_OK else RES_PARERR,
            {| _ffs := _ffs w; _ffs_mutex := _ffs_mutex w;
               errno_res := errno_res w; ext := e' |})) /\
  (0 <= sector * get_write_size bd < 2 ^ bd_bits ->
   bd_mul sector (get_write_size bd) = sector * get_write_size bd) /\
  (0 <= count * get_write_size bd < 2 ^ bd_bits ->
   bd_mul count (get_write_size bd) = count * get_write_size bd).
Proof.
  intros Hp Hslot.
  pose proof (ffs_deref_slot w pdrv bd Hp Hslot) as Hd.
  repeat split.
  - destruct (read bd (bd_mul sector (get_write_size bd))
                (bd_mul count (get_write_size bd)) (ext w))
      as [[err data] e'] eqn:Hr.
    exists err, data, e'. split; [reflexivity |].
    unfold disk_read, bind. rewrite Hd, Hd. unfold on_ext. rewrite Hr.
    reflexivity.
  - destruct (write bd buff (bd_mul sector (get_write_size bd))
                (bd_mul count (get_write_size bd)) (ext w))
      as [err e'] eqn:Hw.
    exists err, e'. split; [reflexivity |].
    unfold disk_write, bind. rewrite Hd, Hd. unfold on_ext. rewrite Hw.
    reflexivity.
  - intros Hfit. unfold bd_mul, to_bd. apply Z.mod_small. exact Hfit.
  - intros Hfit. unfold bd_mul, to_bd. apply Z.mod_small. exact Hfit.
Qed.

(** C6, as amended: on an empty slot the sync, sector-count and sector-size
    queries answer [RES_NOTRDY] and store nothing; the block-size query
    answers [RES_OK] and stores 1 whatever the slot holds.  On a slot with a
    device, sync answers [RES_OK], the sector count stored is
    [size() / get_write_size()] and the sector size [get_write_size()], each
    as a [DWORD] (the exact value when it fits); a zero write size makes the
    sector-count query undefined. *)
Theorem disk_ioctl_queries (pdrv : Z) w slot :
  ioctl_labels_distinct ->
  0 <= pdrv ->
  _ffs w !! Z.to_nat pdrv = Some slot ->
  disk_ioctl pdrv GET_BLOCK_SIZE w = Some ((RES_OK, Some 1), w) /\
  match slot with
  | None =>
      disk_ioctl pdrv CTRL_SYNC w = Some ((RES_NOTRDY, None), w) /\
      disk_ioctl pdrv GET_SECTOR_COUNT w = Some ((RES_NOTRDY, None), w) /\
      disk_ioctl pdrv GET_SECTOR_SIZE w = Some ((RES_NOTRDY, None), w)
  | Some bd =>
      disk_ioctl pdrv CTRL_SYNC w = Some ((RES_OK, None), w) /\
      disk_ioctl pdrv GET_SECTOR_COUNT w =
        (if get_write_size bd =? 0 then None
         else Some ((RES_OK, Some (to_DWORD (size bd / get_write_size bd))), w)) /\
      disk_ioctl pdrv GET_SECTOR_SIZE w =
        Some ((RES_OK, Some (to_DWORD (get_write_size bd))), w) /\
      (0 <= size bd / get_write_size bd < 2 ^ DWORD_bits ->
       to_DWORD (size bd / get_write_size bd) = size bd / get_write_size bd) /\
      (0 <= get_write_size bd < 2 ^ DWORD_bits ->
       to_DWORD (get_write_size bd) = get_write_size bd)
  end.
Proof.
  intros Hnd Hp Hslot.
  unfold ioctl_labels_distinct in Hnd.
  apply NoDup_cons in Hnd as [H1 Hnd]. apply NoDup_cons in Hnd as [H2 Hnd].
  apply NoDup_cons in Hnd as [H3 _].
  assert (H12 : CTRL_SYNC <> GET_SECTOR_COUNT) by label_ne H1.
  assert (H13 : CTRL_SYNC <> GET_SECTOR_SIZE) by label_ne H1.
  assert (H14 : CTRL_SYNC <> GET_BLOCK_SIZE) by label_ne H1.
  assert (H23 : GET_SECTOR_COUNT <> GET_SECTOR_SIZE) by label_ne H2.
  assert (H24 : GET_SECTOR_COUNT <> GET_BLOCK_SIZE) by label_ne H2.
  assert (H34 : GET_SECTOR_SIZE <> GET_BLOCK_SIZE) by label_ne H3.
  pose proof (ffs_at_slot w pdrv slot Hp Hslot) as Hat.
  assert (E21 : (GET_SECTOR_COUNT =? CTRL_SYNC) = false) by (apply Z.eqb_neq; congruence).
  assert (E31 : (GET_SECTOR_SIZE =? CTRL_SYNC) = false) by (apply Z.eqb_neq; congruence).
  assert (E32 : (GET_SECTOR_SIZE =? GET_SECTOR_COUNT) = false) by (apply Z.eqb_neq; congruence).
  assert (E41 : (GET_BLOCK_SIZE =? CTRL_SYNC) = false) by (apply Z.eqb_neq; congruence).
  assert (E42 : (GET_BLOCK_SIZE =? GET_SECTOR_COUNT) = false) by (apply Z.eqb_neq; congruence).
  assert (E43 : (GET_BLOCK_SIZE =? GET_SECTOR_SIZE) = false) by (apply Z.eqb_neq; congruence).
  split.
  { unfold disk_ioctl. rewrite E41, E42, E43, Z.eqb_refl. reflexivity. }
  destruct slot as [bd |].
  - pose proof (ffs_deref_slot w pdrv bd Hp Hslot) as Hd.
    repeat split.
    + unfold disk_ioctl, bind. rewrite Z.eqb_refl, Hat. reflexivity.
    + unfold disk_ioctl, bind. rewrite E21, Z.eqb_refl, Hat, Hd, Hd.
      destruct (get_write_size bd =? 0); reflexivity.
    + unfold disk_ioctl, bind. rewrite E31, E32, Z.eqb_refl, Hat, Hd. reflexivity.
    + intros Hfit. apply Z.mod_small. exact Hfit.
    + intros Hfit. apply Z.mod_small. exact Hfit.
  - repeat split.
    + unfold disk_ioctl, bind. rewrite Z.eqb_refl, Hat. reflexivity.
    + unfold disk_ioctl, bind. rewrite E21, Z.eqb_refl, Hat. reflexivity.
    + unfold disk_ioctl, bind. rewrite E31, E32, Z.eqb_refl, Hat. reflexivity.
Qed.


(** ** Open modes as bit sets *)

Lemma to_BYTE_small x : 0 <= x < 256 -> to_BYTE x = x.
Proof. intros Hx. unfold to_BYTE. apply Z.mod_small. exact Hx. Qed.

Lemma lor_byte a b : 0 <= a < 256 -> 0 <= b < 256 -> 0 <= Z.lor a b < 256.
Proof.
  intros Ha Hb.
  assert (Hnn : 0 <= Z.lor a b) by (apply Z.lor_nonneg; lia).
  split; [exact Hnn |].
  destruct (Z.eq_dec (Z.lor a b) 0) as [Hz | Hnz]; [lia |].
  change 256 with (2 ^ 8). apply Z.log2_lt_pow2; [lia |].
  rewrite Z.log2_lor by lia.
  assert (La : Z.log2 a < 8).
  { destruct (Z.eq_dec a 0) as [-> | Hne]; [reflexivity |].
    apply Z.log2_lt_pow2; [lia |]. change (2 ^ 8) with 256. lia. }
  assert (Lb : Z.log2 b < 8).
  { destruct (Z.eq_dec b 0) as [-> | Hne]; [reflexivity |].
    apply Z.log2_lt_pow2; [lia |]. change (2 ^ 8) with 256. lia. }
  lia.
Qed.

Lemma land_lor_zero_l a b c :
  Z.land (Z.lor a b) c = 0 -> Z.land a c = 0 /\ Z.land b c = 0.
Proof.
  rewrite Z.land_lor_distr_l. intros H. apply Z.lor_eq_0_iff in H. exact H.
Qed.

Lemma land_lor_zero_r a b c :
  Z.land a (Z.lor b c) = 0 -> Z.land a b = 0 /\ Z.land a c = 0.
Proof.
  rewrite Z.land_lor_distr_r. intros H. apply Z.lor_eq_0_iff in H. exact H.
Qed.

(** Clearing the bits of [t] does not change a test against bits apart from
    [t]. *)
Lemma land_ldiff_apart f t x :
  Z.land t x = 0 -> Z.land (Z.ldiff f t) x = Z.land f x.
Proof.
  intros H. apply Z.bits_inj'. intros n Hn.
  rewrite !Z.land_spec, Z.ldiff_spec.
  assert (Hb : Z.testbit (Z.land t x) n = false) by (rewrite H; apply Z.bits_0).
  rewrite Z.land_spec in Hb.
  destruct (Z.testbit f n), (Z.testbit t n), (Z.testbit x n);
    cbn in *; congruence.
Qed.

Lemma access_mode_cases (flags : Z) :
  open_modes_are_bytes ->
  (Z.land flags O_RDWR <> 0 -> access_mode flags = Z.lor FA_READ FA_WRITE) /\
  (Z.land flags O_RDWR = 0 -> Z.land flags O_WRONLY <> 0 ->
   access_mode flags = FA_WRITE) /\
  (Z.land flags O_RDWR = 0 -> Z.land flags O_WRONLY = 0 ->
   access_mode flags = FA_READ).
Proof.
  unfold open_modes_are_bytes. intros Hb.
  apply Forall_cons in Hb as [HR Hb]. apply Forall_cons in Hb as [HW _].
  unfold access_mode. repeat split.
  - intros H. apply Z.eqb_neq in H. rewrite H. cbn [negb].
    apply to_BYTE_small, lor_byte; assumption.
  - intros H1 H2. apply Z.eqb_eq in H1. apply Z.eqb_neq in H2.
    rewrite H1, H2. cbn [negb]. apply to_BYTE_small; assumption.
  - intros H1 H2. apply Z.eqb_eq in H1. apply Z.eqb_eq in H2.
    rewrite H1, H2. cbn [negb]. apply to_BYTE_small; assumption.
Qed.

Lemma access_mode_byte (flags : Z) :
  open_modes_are_bytes -> 0 <= access_mode flags < 256.
Proof.
  intros Hb. destruct (access_mode_cases flags Hb) as (H1 & H2 & H3).
  unfold open_modes_are_bytes in Hb.
  apply Forall_cons in Hb as [HR Hb]. apply Forall_cons in Hb as [HW _].
  destruct (Z.eq_dec (Z.land flags O_RDWR) 0) as [E1 | E1].
  - destruct (Z.eq_dec (Z.land flags O_WRONLY) 0) as [E2 | E2].
    + rewrite (H3 E1 E2). exact HR.
    + rewrite (H2 E1 E2). exact HW.
  - rewrite (H1 E1). apply lor_byte; assumption.
Qed.

Lemma open_run this (name : string) (flags : Z) w res fh e1 :
  (String.length (open_path this name) < 64)%nat ->
  f_open (open_path this name) (open_mode flags) (_ffs w) (ext w)
    = (res, fh, e1) ->
  open this name flags w =
  if res =? 0 then
    if Z.land flags O_APPEND =? 0 then
      Some (Some {| _fh := fh |},
            {| _ffs := _ffs w; _ffs_mutex := _ffs_mutex w;
               errno_res := res; ext := e1 |})
    else
      Some (Some {| _fh := snd (fst (f_lseek fh (fsize fh) (_ffs w) e1)) |},
            {| _ffs := _ffs w; _ffs_mutex := _ffs_mutex w;
               errno_res := res;
               ext := snd (f_lseek fh (fsize fh) (_ffs w) e1) |})
  else
    Some (None,
          {| _ffs := _ffs w; _ffs_mutex := _ffs_mutex w;
             errno_res := res; ext := e1 |}).
Proof.
  intros Hlen Hopen. unfold open, bind, lock.
  destruct (Nat.leb_spec 64 (String.length (open_path this name)))
    as [Hbig | _]; [lia |].
  unfold engine, on_ext. cbn [_ffs ext _ffs_mutex errno_res].
  rewrite Hopen. cbn [fat_filesystem_set_errno _ffs ext _ffs_mutex errno_res].
  destruct (res =? 0); cbn [negb].
  - destruct (Z.land flags O_APPEND =? 0); cbn [negb].
    + reflexivity.
    + cbn [_ffs ext _ffs_mutex errno_res].
      destruct (f_lseek fh (fsize fh) (_ffs w) e1) as [[r fh'] e2].
      reflexivity.
  - reflexivity.
Qed.

(** C7: [open] hands the engine the mode [open_mode flags]: read and write
    access when [O_RDWR] is set, else write access when [O_WRONLY] is set,
    else read access; ored with [FA_CREATE_ALWAYS] when [O_CREAT] and
    [O_TRUNC] are set, with [FA_OPEN_ALWAYS] when [O_CREAT] is set without
    [O_TRUNC], with nothing without [O_CREAT].  When the engine's open
    succeeds and [O_APPEND] is set, the handle holds the file after an
    [f_lseek] to its size [fsize]; without [O_APPEND] it holds the file as
    opened; when the open fails the result is null. *)
Theorem open_translates_flags this (name : string) (flags : Z) w res fh e1 :
  open_modes_are_bytes ->
  (String.length (open_path this name) < 64)%nat ->
  f_open (open_path this name) (open_mode flags) (_ffs w) (ext w)
    = (res, fh, e1) ->
  (Z.land flags O_RDWR <> 0 -> access_mode flags = Z.lor FA_READ FA_WRITE) /\
  (Z.land flags O_RDWR = 0 -> Z.land flags O_WRONLY <> 0 ->
   access_mode flags = FA_WRITE) /\
  (Z.land flags O_RDWR = 0 -> Z.land flags O_WRONLY = 0 ->
   access_mode flags = FA_READ) /\
  (Z.land flags O_CREAT <> 0 -> Z.land flags O_TRUNC <> 0 ->
   open_mode flags = Z.lor (access_mode flags) FA_CREATE_ALWAYS) /\
  (Z.land flags O_CREAT <> 0 -> Z.land flags O_TRUNC = 0 ->
   open_mode flags = Z.lor (access_mode flags) FA_OPEN_ALWAYS) /\
  (Z.land flags O_CREAT = 0 -> open_mode flags = access_mode flags) /\
  (res <> 0 ->
   open this name flags w =
   Some (None, {| _ffs := _ffs w; _ffs_mutex := _ffs_mutex w;
                  errno_res := res; ext := e1 |})) /\
  (res = 0 -> Z.land flags O_APPEND = 0 ->
   open this name flags w =
   Some (Some {| _fh := fh |},
         {| _ffs := _ffs w; _ffs_mutex := _ffs_mutex w;
            errno_res := res; ext := e1 |})) /\
  (res = 0 -> Z.land flags O_APPEND <> 0 ->
   exists r fh' e2,
     f_lseek fh (fsize fh) (_ffs w) e1 = (r, fh', e2) /\
     open this name flags w =
     Some (Some {| _fh := fh' |},
           {| _ffs := _ffs w; _ffs_mutex := _ffs_mutex w;
              errno_res := res; ext := e2 |})).
Proof.
  intros Hb Hlen Hopen.
  destruct (access_mode_cases flags Hb) as (A1 & A2 & A3).
  pose proof (access_mode_byte flags Hb) as Hacc.
  pose proof (open_run this name flags w res fh e1 Hlen Hopen) as Hrun.
  unfold open_modes_are_bytes in Hb.
  apply Forall_cons in Hb as [HR Hb]. apply Forall_cons in Hb as [HW Hb].
  apply Forall_cons in Hb as [HC Hb]. apply Forall_cons in Hb as [HO _].
  split; [exact A1 |]. split; [exact A2 |]. split; [exact A3 |].
  split; [| split; [| split; [| split; [| split]]]].
  - intros H1 H2. unfold open_mode.
    apply Z.eqb_neq in H1. apply Z.eqb_neq in H2. rewrite H1, H2. cbn [negb].
    apply to_BYTE_small, lor_byte; assumption.
  - intros H1 H2. unfold open_mode.
    apply Z.eqb_neq in H1. apply Z.eqb_eq in H2. rewrite H1, H2. cbn [negb].
    apply to_BYTE_small, lor_byte; assumption.
  - intros H1. unfold open_mode. apply Z.eqb_eq in H1. rewrite H1. reflexivity.
  - intros Hres. apply Z.eqb_neq in Hres. rewrite Hres in Hrun. exact Hrun.
  - intros Hres Happ. apply Z.eqb_eq in Hres. apply Z.eqb_eq in Happ.
    rewrite Hres, Happ in Hrun. exact Hrun.
  - intros Hres Happ. apply Z.eqb_eq in Hres. apply Z.eqb_neq in Happ.
    rewrite Hres, Happ in Hrun.
    destruct (f_lseek fh (fsize fh) (_ffs w) e1) as [[r fh'] e2].
    exists r, fh', e2. split; [reflexivity | exact Hrun].
Qed.

(** C10: with [O_TRUNC] set and [O_CREAT] clear, the open mode is the access
    mode alone, neither [FA_CREATE_ALWAYS] nor [FA_OPEN_ALWAYS] is in it, and
    [open] does exactly what it does for the same flags without [O_TRUNC]. *)
Theorem open_trunc_without_creat this (name : string) (flags : Z) w :
  open_modes_are_bytes ->
  create_bits_apart ->
  trunc_bit_apart ->
  Z.land flags O_TRUNC <> 0 ->
  Z.land flags O_CREAT = 0 ->
  open_mode flags = access_mode flags /\
  Z.land (open_mode flags) FA_CREATE_ALWAYS = 0 /\
  Z.land (open_mode flags) FA_OPEN_ALWAYS = 0 /\
  open this name flags w = open this name (Z.ldiff flags O_TRUNC) w.
Proof.
  intros Hb Hcr Htr Htrunc Hcreat.
  assert (Hmode : open_mode flags = access_mode flags).
  { unfold open_mode. apply Z.eqb_eq in Hcreat. rewrite Hcreat. reflexivity. }
  unfold create_bits_apart in Hcr.
  apply land_lor_zero_l in Hcr as [HRc HWc].
  apply land_lor_zero_r in HRc as [HRC HRO].
  apply land_lor_zero_r in HWc as [HWC HWO].
  unfold trunc_bit_apart in Htr.
  apply land_lor_zero_r in Htr as [Ht1 Ht2].
  apply land_lor_zero_r in Ht1 as [HtRW HtW].
  apply land_lor_zero_r in Ht2 as [HtC HtA].
  assert (Hland : forall c, Z.land FA_READ c = 0 -> Z.land FA_WRITE c = 0 ->
                            Z.land (access_mode flags) c = 0).
  { intros c HRc HWc.
    destruct (access_mode_cases flags Hb) as (A1 & A2 & A3).
    destruct (Z.eq_dec (Z.land flags O_RDWR) 0) as [E1 | E1].
    - destruct (Z.eq_dec (Z.land flags O_WRONLY) 0) as [E2 | E2].
      + rewrite (A3 E1 E2). exact HRc.
      + rewrite (A2 E1 E2). exact HWc.
    - rewrite (A1 E1), Z.land_lor_distr_l, HRc, HWc. reflexivity. }
  split; [exact Hmode |].
  split; [rewrite Hmode; apply Hland; assumption |].
  split; [rewrite Hmode; apply Hland; assumption |].
  assert (Hsame : open_mode (Z.ldiff flags O_TRUNC) = open_mode flags).
  { unfold open_mode, access_mode.
    rewrite (land_ldiff_apart flags O_TRUNC O_RDWR HtRW),
            (land_ldiff_apart flags O_TRUNC O_WRONLY HtW),
            (land_ldiff_apart flags O_TRUNC O_CREAT HtC).
    apply Z.eqb_eq in Hcreat. rewrite Hcreat. reflexivity. }
  unfold open. rewrite Hsame.
  rewrite (land_ldiff_apart flags O_TRUNC O_APPEND HtA).
  reflexivity.
Qed.

(** ** Further properties of the front end *)

(** X1: [mount] on an instance that is already mounted returns -1 and
    changes nothing. *)
Theorem mount_already_mounted_fails this bd force w :
  _id this <> -1 -> mount this bd force w = Some ((-1, this), w).
Proof.
  intros Hid. unfold mount, bind, lock.
  apply Z.eqb_neq in Hid. rewrite Hid. cbn [negb].
  cbn [unlock ret _ffs _ffs_mutex errno_res ext Nat.pred].
  rewrite world_eta. reflexivity.
Qed.

(** X2: [unmount] on an unmounted instance returns -1 and changes nothing
    (the destructor's no-op). *)
Theorem unmount_unmounted_fails this w :
  _id this = -1 -> unmount this w = Some ((-1, this), w).
Proof.
  intros Hid. unfold unmount, bind, lock.
  rewrite Hid, Z.eqb_refl.
  cbn [unlock ret _ffs _ffs_mutex errno_res ext Nat.pred].
  rewrite world_eta. reflexivity.
Qed.

(** X3: [mount] on an unmounted instance takes the first free slot [i]: the
    device is stored there, [_id] becomes [i], the label the single
    character ['0' + i]; the other slots keep their content, the engine's
    answer is recorded for errno, the mutex is released, and the result is
    0 exactly when the engine answered 0. *)
Theorem mount_claims_first_free_slot this bd force w (i : nat) res e' :
  _id this = -1 ->
  length (_ffs w) = _VOLUMES ->
  _ffs w !! i = Some None ->
  (forall j, (j < i)%nat -> exists d, _ffs w !! j = Some (Some d)) ->
  f_mount true (fsid_of i) (Z.b2z force) (<[i := Some bd]> (_ffs w)) (ext w)
    = (res, e') ->
  exists this' w',
    mount this bd force w = Some ((if res =? 0 then 0 else -1, this'), w') /\
    _id this' = Z.of_nat i /\
    _fsid this' = String (ascii_of_nat (48 + i)) EmptyString /\
    _ffs w' !! i = Some (Some bd) /\
    (forall j, j <> i -> _ffs w' !! j = _ffs w !! j) /\
    errno_res w' = res /\
    _ffs_mutex w' = _ffs_mutex w.
Proof.
  intros Hid Hlen Hfree Hocc Hm.
  assert (Hi : (i < length (_ffs w))%nat) by (eapply lookup_lt_Some; exact Hfree).
  eexists _, _.
  split; [exact (mount_first_free this bd force w i res e' Hid Hlen Hfree Hocc Hm) |].
  cbn [_id _fsid _ffs errno_res _ffs_mutex]. repeat split.
  - apply list_lookup_insert_eq. exact Hi.
  - intros j Hj. apply list_lookup_insert_ne. congruence.
Qed.

(** X4: a command that is none of the four handled ones gets [RES_PARERR]
    and nothing is stored, whatever the slot. *)
Theorem disk_ioctl_unknown_command (pdrv cmd : Z) w :
  cmd <> CTRL_SYNC -> cmd <> GET_SECTOR_COUNT ->
  cmd <> GET_SECTOR_SIZE -> cmd <> GET_BLOCK_SIZE ->
  disk_ioctl pdrv cmd w = Some ((RES_PARERR, None), w).
Proof.
  intros H1 H2 H3 H4. unfold disk_ioctl.
  apply Z.eqb_neq in H1. apply Z.eqb_neq in H2.
  apply Z.eqb_neq in H3. apply Z.eqb_neq in H4.
  rewrite H1, H2, H3, H4. reflexivity.
Qed.

(** X5: [format] returns 0 or -1 and, on every path, leaves the volume
    table and the mutex as it found them: the slot its local instance took
    is released by [unmount], at the latest in the destructor. *)
Theorem format_restores_table (fsid0 : string) bd (allocation_unit : Z) w :
  length (_ffs w) = _VOLUMES ->
  exists r w',
    format fsid0 bd allocation_unit w = Some (r, w') /\
    (r = 0 \/ r = -1) /\
    _ffs w' = _ffs w /\
    _ffs_mutex w' = _ffs_mutex w.
Proof.
  intros Hlen. unfold format.
  set (fs := {| _id := -1; _fsid := fsid0 |}).
  destruct (first_free_or_full (_ffs w)) as [Hfull | (i & Hfree & Hocc)].
  - rewrite (bind_Some _ _ w (-1, fs) w)
      by (apply mount_occupied_run; [reflexivity |];
          intros j Hj; apply full_table_occupied; [exact Hfull |];
          rewrite Hlen; exact Hj).
    cbn [Z.eqb negb].
    rewrite (bind_Some _ _ w (-1, fs) w) by (apply unmount_unmounted_run; reflexivity).
    exists (-1), w. repeat split. right. reflexivity.
  - assert (Hi : (i < length (_ffs w))%nat) by (eapply lookup_lt_Some; exact Hfree).
    destruct (f_mount true (fsid_of i) (Z.b2z false) (<[i := Some bd]> (_ffs w)) (ext w))
      as [res e1] eqn:Hm.
    rewrite (bind_Some _ _ w _ _ (mount_first_free fs bd false w i res e1
                                    eq_refl Hlen Hfree Hocc Hm)).
    set (fs1 := {| _id := Z.of_nat i; _fsid := fsid_of i |}).
    set (w1 := {| _ffs := <[i:=Some bd]> (_ffs w); _ffs_mutex := _ffs_mutex w;
                  errno_res := res; ext := e1 |}).
    assert (Hi1 : forall m r e, (i < length (_ffs {| _ffs := <[i:=Some bd]> (_ffs w);
                 _ffs_mutex := m; errno_res := r; ext := e |}))%nat).
    { intros m r e. cbn [_ffs]. rewrite length_insert. exact Hi. }
    assert (Hback : <[i:=None]> (<[i:=Some bd]> (_ffs w)) = _ffs w).
    { rewrite list_insert_insert_eq. apply list_insert_id. exact Hfree. }
    destruct (Z.eqb_spec res 0) as [Hres | Hres]; cbn [Z.eqb negb].
    + erewrite bind_Some by reflexivity.
      match goal with
      | |- context [bind (engine ?f) _ ?W] =>
          destruct (f (_ffs W) (ext W)) as [res2 e2] eqn:Hk;
          rewrite (bind_Some _ _ W _ _ (engine_run f W res2 e2 Hk))
      end.
      erewrite bind_Some by reflexivity.
      erewrite bind_Some by reflexivity.
      subst w1. cbn [_ffs _ffs_mutex errno_res ext Nat.pred].
      set (w2 := {| _ffs := <[i:=Some bd]> (_ffs w); _ffs_mutex := _ffs_mutex w;
                    errno_res := res2; ext := e2 |}).
      destruct (f_mount false (_fsid fs1) 0 (_ffs w2) (ext w2)) as [res3 e3] eqn:Hu.
      rewrite (bind_Some _ _ w2 _ _ (unmount_run fs1 w2 i res3 e3 eq_refl (Hi1 _ _ _) Hu)).
      set (fs2 := {| _id := -1; _fsid := _fsid fs1 |}).
      set (w3 := {| _ffs := <[i:=None]> (_ffs w2); _ffs_mutex := _ffs_mutex w2;
                    errno_res := res3; ext := e3 |}).
      destruct (res3 =? 0); cbn [Z.eqb negb];
        rewrite (bind_Some _ _ w3 (-1, fs2) w3)
          by (apply unmount_unmounted_run; reflexivity).
      * eexists _, w3. split; [reflexivity |].
        split; [destruct (res2 =? 0); [left | right]; reflexivity |].
        subst w3 w2. cbn [_ffs _ffs_mutex]. split; [exact Hback | reflexivity].
      * exists (-1), w3. split; [reflexivity |]. split; [right; reflexivity |].
        subst w3 w2. cbn [_ffs _ffs_mutex]. split; [exact Hback | reflexivity].
    + destruct (f_mount false (_fsid fs1) 0 (_ffs w1) (ext w1)) as [res3 e3] eqn:Hu.
      rewrite (bind_Some _ _ w1 _ _ (unmount_run fs1 w1 i res3 e3 eq_refl (Hi1 _ _ _) Hu)).
      exists (-1). eexists. split; [reflexivity |]. split; [right; reflexivity |].
      cbn [_ffs _ffs_mutex]. split; [exact Hback | reflexivity].
Qed.

End AdapterFacts.

Section SlicingFacts.
Context {Ext : Type}.

(** C8: for [0 < k <= size U], the slice built from the single negative
    bound [-k] is the slice built from the bounds [size U - k] and [size U]:
    its size is [k], its write size that of [U], and a read or write within
    it goes to [U] at the address plus [size U - k]. *)
Theorem slice_negative_bound_equiv (bounds_error : Z) (U : BlockDevice Ext)
    (k : Z) :
  0 < k <= size U ->
  Slice_last U (- k) = Slice U (size U - k) (size U) /\
  exists s,
    Slice_last U (- k) = Some s /\
    _bd s = U /\ _start s = size U - k /\ _stop s = size U /\
    size (slice_device bounds_error s) = k /\
    get_write_size (slice_device bounds_error s) = get_write_size U /\
    forall addr len,
      addr + len <= k ->
      read (slice_device bounds_error s) addr len
        = read U (addr + (size U - k)) len /\
      forall buff,
        write (slice_device bounds_error s) buff addr len
          = write U buff (addr + (size U - k)) len.
Proof.
  intros Hk.
  assert (Hlast : Slice_last U (- k) =
                  Some {| _bd := U; _start := size U - k; _stop := size U |}).
  { unfold Slice_last, slice_bounds_ok.
    destruct (Z.ltb_spec (- k) 0) as [_ | Hge]; [| lia].
    rewrite Z.abs_opp, Z.abs_eq by lia.
    destruct (Z.leb_spec 0 (size U - k)) as [_ | H1]; [| lia].
    destruct (Z.ltb_spec (size U - k) (size U)) as [_ | H2]; [| lia].
    rewrite Z.leb_refl. reflexivity. }
  assert (Habs : Slice U (size U - k) (size U) =
                 Some {| _bd := U; _start := size U - k; _stop := size U |}).
  { unfold Slice, resolve_bound, slice_bounds_ok.
    destruct (Z.ltb_spec (size U - k) 0) as [Hneg | _]; [lia |].
    destruct (Z.ltb_spec (size U) 0) as [Hneg | _]; [lia |].
    destruct (Z.leb_spec 0 (size U - k)) as [_ | H1]; [| lia].
    destruct (Z.ltb_spec (size U - k) (size U)) as [_ | H2]; [| lia].
    rewrite Z.leb_refl. reflexivity. }
  split; [rewrite Hlast, Habs; reflexivity |].
  eexists. split; [exact Hlast |].
  cbn [_bd _start _stop slice_device size get_write_size read write].
  unfold slice_read, slice_write, slice_size. cbn [_bd _start _stop].
  replace (size U - (size U - k)) with k by lia.
  repeat split.
  - destruct (Z.leb_spec (addr + len) k) as [_ | Hgt]; [reflexivity | lia].
  - intros buff.
    destruct (Z.leb_spec (addr + len) k) as [_ | Hgt]; [reflexivity | lia].
Qed.

End SlicingFacts.

(** ** The time stamp *)

Section TimeFacts.
Context {hdr : Headers}.

Lemma to_DWORD_small x :
  32 <= DWORD_bits -> 0 <= x < 2 ^ 32 -> to_DWORD x = x.
Proof.
  intros Hw Hx. unfold to_DWORD. apply Z.mod_small.
  assert (2 ^ 32 <= 2 ^ DWORD_bits) by (apply Z.pow_le_mono_r; lia).
  lia.
Qed.

Lemma lor_add_disjoint q k b :
  0 <= k -> 0 <= b < 2 ^ k -> Z.lor (q * 2 ^ k) b = q * 2 ^ k + b.
Proof.
  intros Hk Hb.
  assert (Hland : Z.land (q * 2 ^ k) b = 0).
  { apply Z.bits_inj'. intros n Hn. rewrite Z.land_spec, Z.bits_0.
    destruct (Z.lt_ge_cases n k) as [Hlt | Hge].
    - rewrite Z.mul_pow2_bits_low by lia. reflexivity.
    - rewrite <- (Z.mod_small b (2 ^ k)) by lia.
      rewrite Z.mod_pow2_bits_high by lia. apply andb_false_r. }
  rewrite <- Z.lxor_lor by exact Hland.
  symmetry. apply Z.add_nocarry_lxor. exact Hland.
Qed.

Lemma quot2_range s : 0 <= s <= 60 -> 0 <= Z.quot s 2 <= 30.
Proof.
  intros Hs. rewrite Z.quot_div_nonneg by lia.
  split; [apply Z.div_pos; lia |].
  apply Z.div_le_upper_bound; lia.
Qed.

Lemma div_pack a b q r : a = q * b + r -> 0 <= r < b -> a / b = q.
Proof.
  intros Ha Hr. symmetry. apply (Z.div_unique a b q r); [left; exact Hr | lia].
Qed.

Lemma mod_pack a b q r : a = q * b + r -> 0 <= r < b -> a mod b = r.
Proof.
  intros Ha Hr. symmetry. apply (Z.mod_unique a b q r); [left; exact Hr | lia].
Qed.

(** The stamp as a number: the fields at the binary positions 25, 21, 16,
    11, 5 and 0. *)
Lemma get_fattime_value (t : tm) :
  32 <= DWORD_bits -> tm_in_range t ->
  get_fattime t =
  (tm_year t - 80) * 2 ^ 25 + (tm_mon t + 1) * 2 ^ 21 + tm_mday t * 2 ^ 16 +
  tm_hour t * 2 ^ 11 + tm_min t * 2 ^ 5 + Z.quot (tm_sec t) 2.
Proof.
  intros Hw (Hy & Hm & Hd & Hh & Hmi & Hs).
  pose proof (quot2_range _ Hs) as Hq.
  unfold get_fattime, DWORD_shl.
  rewrite (to_DWORD_small (tm_year t - 80)), (to_DWORD_small (tm_mon t + 1)),
    (to_DWORD_small (tm_mday t)), (to_DWORD_small (tm_hour t)),
    (to_DWORD_small (tm_min t)), (to_DWORD_small (Z.quot (tm_sec t) 2))
    by (try exact Hw; lia).
  rewrite !Z.shiftl_mul_pow2 by lia.
  rewrite !to_DWORD_small by (try exact Hw; lia).
  set (Y := tm_year t - 80) in *. set (M := tm_mon t + 1) in *.
  set (D := tm_mday t) in *. set (h := tm_hour t) in *.
  set (m := tm_min t) in *. set (s := Z.quot (tm_sec t) 2) in *.
  rewrite (lor_add_disjoint Y 25) by lia.
  replace (Y * 2 ^ 25 + M * 2 ^ 21) with ((Y * 16 + M) * 2 ^ 21) by lia.
  rewrite (lor_add_disjoint _ 21) by lia.
  replace ((Y * 16 + M) * 2 ^ 21 + D * 2 ^ 16)
    with (((Y * 16 + M) * 32 + D) * 2 ^ 16) by lia.
  rewrite (lor_add_disjoint _ 16) by lia.
  replace (((Y * 16 + M) * 32 + D) * 2 ^ 16 + h * 2 ^ 11)
    with ((((Y * 16 + M) * 32 + D) * 32 + h) * 2 ^ 11) by lia.
  rewrite (lor_add_disjoint _ 11) by lia.
  replace ((((Y * 16 + M) * 32 + D) * 32 + h) * 2 ^ 11 + m * 2 ^ 5)
    with (((((Y * 16 + M) * 32 + D) * 32 + h) * 64 + m) * 2 ^ 5) by lia.
  rewrite (lor_add_disjoint _ 5) by lia.
  lia.
Qed.

(** X6: for a time within the encodable range, the stamp fits 32 bits and
    holds year - 80, month + 1, day, hour, minute and second / 2 in the bit
    fields [31:25], [24:21], [20:16], [15:11], [10:5] and [4:0]. *)
Theorem get_fattime_fields (t : tm) :
  32 <= DWORD_bits -> tm_in_range t ->
  0 <= get_fattime t < 2 ^ 32 /\
  Z.shiftr (get_fattime t) 25 = tm_year t - 80 /\
  Z.land (Z.shiftr (get_fattime t) 21) 15 = tm_mon t + 1 /\
  Z.land (Z.shiftr (get_fattime t) 16) 31 = tm_mday t /\
  Z.land (Z.shiftr (get_fattime t) 11) 31 = tm_hour t /\
  Z.land (Z.shiftr (get_fattime t) 5) 63 = tm_min t /\
  Z.land (get_fattime t) 31 = Z.quot (tm_sec t) 2.
Proof.
  intros Hw Hr. rewrite (get_fattime_value t Hw Hr).
  destruct Hr as (Hy & Hm & Hd & Hh & Hmi & Hs).
  pose proof (quot2_range _ Hs) as Hq.
  set (Y := tm_year t - 80) in *. set (M := tm_mon t + 1) in *.
  set (D := tm_mday t) in *. set (h := tm_hour t) in *.
  set (m := tm_min t) in *. set (s := Z.quot (tm_sec t) 2) in *.
  set (v := Y * 2 ^ 25 + M * 2 ^ 21 + D * 2 ^ 16 + h * 2 ^ 11 + m * 2 ^ 5 + s).
  assert (Hv : v = Y * 2 ^ 25 + M * 2 ^ 21 + D * 2 ^ 16 + h * 2 ^ 11
                   + m * 2 ^ 5 + s) by reflexivity.
  clearbody v.
  change 15 with (Z.ones 4). change 31 with (Z.ones 5).
  change 63 with (Z.ones 6).
  rewrite !Z.land_ones, !Z.shiftr_div_pow2 by lia.
  split; [lia |].
  split; [apply (div_pack v _ Y (v - Y * 2 ^ 25)); lia |].
  split.
  { rewrite (div_pack v (2 ^ 21) (Y * 16 + M) (v - (Y * 16 + M) * 2 ^ 21)) by lia.
    apply (mod_pack _ _ Y); lia. }
  split.
  { rewrite (div_pack v (2 ^ 16) ((Y * 16 + M) * 32 + D)
               (v - ((Y * 16 + M) * 32 + D) * 2 ^ 16)) by lia.
    apply (mod_pack _ _ (Y * 16 + M)); lia. }
  split.
  { rewrite (div_pack v (2 ^ 11) (((Y * 16 + M) * 32 + D) * 32 + h)
               (v - (((Y * 16 + M) * 32 + D) * 32 + h) * 2 ^ 11)) by lia.
    apply (mod_pack _ _ ((Y * 16 + M) * 32 + D)); lia. }
  split.
  { rewrite (div_pack v (2 ^ 5) ((((Y * 16 + M) * 32 + D) * 32 + h) * 64 + m)
               (v - ((((Y * 16 + M) * 32 + D) * 32 + h) * 64 + m) * 2 ^ 5)) by lia.
    apply (mod_pack _ _ (((Y * 16 + M) * 32 + D) * 32 + h)); lia. }
  apply (mod_pack _ _ ((((Y * 16 + M) * 32 + D) * 32 + h) * 64 + m)); lia.
Qed.

(** X7: within the encodable range the stamp never decreases when time
    advances, and two times get the same stamp only when they agree in every
    field down to the second divided by 2. *)
Theorem get_fattime_monotone (a b : tm) :
  32 <= DWORD_bits -> tm_in_range a -> tm_in_range b ->
  (tm_earlier a b -> get_fattime a <= get_fattime b) /\
  (get_fattime a = get_fattime b ->
   tm_year a = tm_year b /\ tm_mon a = tm_mon b /\ tm_mday a = tm_mday b /\
   tm_hour a = tm_hour b /\ tm_min a = tm_min b /\
   Z.quot (tm_sec a) 2 = Z.quot (tm_sec b) 2).
Proof.
  intros Hw Ha Hb.
  rewrite (get_fattime_value a Hw Ha), (get_fattime_value b Hw Hb).
  destruct Ha as (Hya & Hma & Hda & Hha & Hmia & Hsa).
  destruct Hb as (Hyb & Hmb & Hdb & Hhb & Hmib & Hsb).
  pose proof (quot2_range _ Hsa) as Hqa.
  pose proof (quot2_range _ Hsb) as Hqb.
  assert (Hsec : tm_sec a < tm_sec b ->
                 Z.quot (tm_sec a) 2 <= Z.quot (tm_sec b) 2).
  { intros Hlt. rewrite !Z.quot_div_nonneg by lia.
    apply Z.div_le_mono; lia. }
  set (sa := Z.quot (tm_sec a) 2) in *. set (sb := Z.quot (tm_sec b) 2) in *.
  split.
  - unfold tm_earlier. intros He. lia.
  - intros He. lia.
Qed.

End TimeFacts.

Section MoreAdapterFacts.
Context {hdr : Headers} {fhdr : FrontHeaders} {Ext FIL DIR : Type}
        {eng : Engine Ext FIL} {peng : PathEngine Ext DIR}.
Implicit Types (w : World Ext) (this : FATFileSystem) (bd : BlockDevice Ext).

(** X8: on a slot that holds a device (of non-zero write size), every
    driver callback returns; [disk_status] and [disk_ioctl] leave the world
    as it is, [disk_initialize], [disk_read] and [disk_write] change [ext]
    only: no callback assigns the volume table, the mutex or errno. *)
Theorem disk_callbacks_keep_table (pdrv : Z) w bd :
  0 <= pdrv ->
  _ffs w !! Z.to_nat pdrv = Some (Some bd) ->
  get_write_size bd <> 0 ->
  disk_status pdrv w = Some (RES_OK, w) /\
  (forall cmd, exists r, disk_ioctl pdrv cmd w = Some (r, w)) /\
  (exists r w', disk_initialize pdrv w = Some (r, w') /\
                only_ext_changed w w') /\
  (forall sector count,
      exists r w', disk_read pdrv sector count w = Some (r, w') /\
                   only_ext_changed w w') /\
  (forall buff sector count,
      exists r w', disk_write pdrv buff sector count w = Some (r, w') /\
                   only_ext_changed w w').
Proof.
  intros Hp Hslot Hws.
  pose proof (ffs_at_slot w pdrv (Some bd) Hp Hslot) as Hat.
  pose proof (ffs_deref_slot w pdrv bd Hp Hslot) as Hd.
  apply Z.eqb_neq in Hws.
  split; [reflexivity |]. split; [| split; [| split]].
  - intros cmd. unfold disk_ioctl, bind.
    destruct (cmd =? CTRL_SYNC); [rewrite Hat; eexists; reflexivity |].
    destruct (cmd =? GET_SECTOR_COUNT);
      [rewrite Hat, Hd, Hd, Hws; eexists; reflexivity |].
    destruct (cmd =? GET_SECTOR_SIZE); [rewrite Hat, Hd; eexists; reflexivity |].
    destruct (cmd =? GET_BLOCK_SIZE); eexists; reflexivity.
  - unfold disk_initialize, bind. rewrite Hd. unfold on_ext.
    destruct (init bd (ext w)) as [err e'].
    eexists _, _. split; [reflexivity | repeat split].
  - intros sector count. unfold disk_read, bind. rewrite Hd, Hd. unfold on_ext.
    destruct (read bd _ _ (ext w)) as [[err data] e'].
    eexists _, _. split; [reflexivity | repeat split].
  - intros buff sector count. unfold disk_write, bind. rewrite Hd, Hd.
    unfold on_ext. destruct (write bd buff _ _ (ext w)) as [err e'].
    eexists _, _. split; [reflexivity | repeat split].
Qed.

(** X9: [disk_initialize], [disk_read] and [disk_write] do not test the
    slot: on an empty slot they go through the null pointer, which is
    undefined. *)
Theorem disk_transfer_null_slot_undefined (pdrv : Z) w :
  0 <= pdrv ->
  _ffs w !! Z.to_nat pdrv = Some None ->
  disk_initialize pdrv w = None /\
  (forall sector count, disk_read pdrv sector count w = None) /\
  (forall buff sector count, disk_write pdrv buff sector count w = None).
Proof.
  intros Hp Hslot.
  assert (Hd : ffs_deref pdrv w = None).
  { unfold ffs_deref, bind. rewrite (ffs_at_slot w pdrv None Hp Hslot).
    reflexivity. }
  repeat split.
  - unfold disk_initialize, bind. rewrite Hd. reflexivity.
  - intros sector count. unfold disk_read, bind. rewrite Hd. reflexivity.
  - intros buff sector count. unfold disk_write, bind. rewrite Hd. reflexivity.
Qed.

(** X10: [disk_initialize] reports the low byte of what the device's [init]
    returned: it reports 0 exactly when that result is a multiple of 256. *)
Theorem disk_initialize_status (pdrv : Z) w bd err e' :
  0 <= pdrv ->
  _ffs w !! Z.to_nat pdrv = Some (Some bd) ->
  init bd (ext w) = (err, e') ->
  disk_initialize pdrv w =
    Some (err mod 256,
          {| _ffs := _ffs w; _ffs_mutex := _ffs_mutex w;
             errno_res := errno_res w; ext := e' |}) /\
  0 <= err mod 256 < 256 /\
  (err mod 256 = 0 <-> exists k, err = 256 * k).
Proof.
  intros Hp Hslot Hinit. split; [| split].
  - unfold disk_initialize, bind.
    rewrite (ffs_deref_slot w pdrv bd Hp Hslot).
    unfold on_ext. rewrite Hinit. reflexivity.
  - apply Z.mod_pos_bound. lia.
  - split.
    + intros Hz. exists (err / 256).
      pose proof (Z.div_mod err 256 ltac:(lia)). lia.
    + intros [k ->]. rewrite Z.mul_comm. apply Z.mod_mul. lia.
Qed.

(** ** What [mount] can do *)

(** On a table of [_VOLUMES] slots, [mount] on an unmounted instance either
    finds the table full and changes nothing, or takes the first free slot. *)
Lemma mount_outcomes this bd force w :
  _id this = -1 ->
  length (_ffs w) = _VOLUMES ->
  (Forall (fun slot => slot <> None) (_ffs w) /\
   mount this bd force w = Some ((-1, this), w)) \/
  (exists (i : nat) res e',
      (i < _VOLUMES)%nat /\
      _ffs w !! i = Some None /\
      (forall j, (j < i)%nat -> exists d, _ffs w !! j = Some (Some d)) /\
      mount this bd force w =
      Some ((if res =? 0 then 0 else -1,
             {| _id := Z.of_nat i; _fsid := fsid_of i |}),
            {| _ffs := <[i := Some bd]> (_ffs w);
               _ffs_mutex := _ffs_mutex w;
               errno_res := res; ext := e' |})).
Proof.
  intros Hid Hlen.
  destruct (first_free_or_full (_ffs w)) as [Hfull | (i & Hfree & Hocc)].
  - left. split; [exact Hfull |].
    apply mount_occupied_run; [exact Hid |].
    intros j Hj. apply full_table_occupied; [exact Hfull |].
    rewrite Hlen. exact Hj.
  - right.
    destruct (f_mount true (fsid_of i) (Z.b2z force)
                (<[i := Some bd]> (_ffs w)) (ext w)) as [res e'] eqn:Hm.
    exists i, res, e'.
    split; [rewrite <- Hlen; eapply lookup_lt_Some; exact Hfree |].
    split; [exact Hfree |]. split; [exact Hocc |].
    apply mount_first_free; assumption.
Qed.

(** [unmount] of the instance that took slot [i] puts the table back. *)
Lemma unmount_after_mount w (i : nat) bd m r e :
  _ffs w !! i = Some None ->
  exists r2 w2,
    unmount {| _id := Z.of_nat i; _fsid := fsid_of i |}
      {| _ffs := <[i := Some bd]> (_ffs w); _ffs_mutex := m;
         errno_res := r; ext := e |}
    = Some ((r2, {| _id := -1; _fsid := fsid_of i |}), w2) /\
    _ffs w2 = _ffs w /\ _ffs_mutex w2 = m.
Proof.
  intros Hfree.
  assert (Hi : (i < length (_ffs w))%nat) by (eapply lookup_lt_Some; exact Hfree).
  set (this1 := {| _id := Z.of_nat i; _fsid := fsid_of i |}).
  set (w1 := {| _ffs := <[i := Some bd]> (_ffs w); _ffs_mutex := m;
                errno_res := r; ext := e |}).
  destruct (f_mount false (_fsid this1) 0 (_ffs w1) (ext w1)) as [res2 e2] eqn:Hu.
  eexists _, _. split.
  - apply (unmount_run this1 w1 i res2 e2); [reflexivity | | exact Hu].
    subst w1. cbn [_ffs]. rewrite length_insert. exact Hi.
  - subst w1. cbn [_ffs _ffs_mutex]. split; [| reflexivity].
    rewrite list_insert_insert_eq. apply list_insert_id. exact Hfree.
Qed.

(** X11: [mount] followed by [unmount] on an unmounted instance always
    returns and leaves the volume table and the mutex as they were, with the
    instance unmounted again, whatever the engine answered and whether or not
    a slot was free. *)
Theorem mount_unmount_round_trip this bd force w :
  _id this = -1 ->
  length (_ffs w) = _VOLUMES ->
  exists r1 this1 w1 r2 this2 w2,
    mount this bd force w = Some ((r1, this1), w1) /\
    unmount this1 w1 = Some ((r2, this2), w2) /\
    _ffs w2 = _ffs w /\
    _ffs_mutex w2 = _ffs_mutex w /\
    _id this2 = -1.
Proof.
  intros Hid Hlen.
  destruct (mount_outcomes this bd force w Hid Hlen)
    as [[_ Hrun] | (i & res & e' & _ & Hfree & _ & Hrun)].
  - exists (-1), this, w, (-1), this, w.
    split; [exact Hrun |].
    split; [apply unmount_unmounted_run; exact Hid |].
    repeat split. exact Hid.
  - destruct (unmount_after_mount w i bd (_ffs_mutex w) res e' Hfree)
      as (r2 & w2 & Hun & Htable & Hmutex).
    eexists _, _, _, r2, _, w2.
    split; [exact Hrun |]. split; [exact Hun |].
    repeat split; assumption.
Qed.

(** X12: once [mount] has taken a slot, the instance counts as mounted even
    if the engine refused the volume: any further [mount] on it returns -1
    and changes nothing. *)
Theorem mount_retry_needs_unmount this bd force w (i : nat) :
  _id this = -1 ->
  length (_ffs w) = _VOLUMES ->
  _ffs w !! i = Some None ->
  exists r this1 w1,
    mount this bd force w = Some ((r, this1), w1) /\
    _id this1 <> -1 /\
    forall bd' force', mount this1 bd' force' w1 = Some ((-1, this1), w1).
Proof.
  intros Hid Hlen Hfree.
  destruct (mount_outcomes this bd force w Hid Hlen)
    as [[Hfull _] | (k & res & e' & _ & _ & _ & Hrun)].
  - rewrite Forall_lookup in Hfull. destruct (Hfull i None Hfree eq_refl).
  - eexists _, _, _. split; [exact Hrun |].
    assert (Hne : Z.of_nat k <> -1) by lia.
    split; [exact Hne |].
    intros bd' force'. unfold mount, bind, lock. cbn [_id].
    apply Z.eqb_neq in Hne. rewrite Hne. cbn [negb].
    cbn [unlock ret _ffs _ffs_mutex errno_res ext Nat.pred]. reflexivity.
Qed.




(** ** The path operations, run *)

Lemma remove_run this (filename : string) w res e :
  f_unlink filename (_ffs w) (ext w) = (res, e) ->
  remove this filename w = Some (if res =? 0 then 0 else -1, after_engine w res e).
Proof.
  intros He. unfold remove, bind, lock, engine, on_ext.
  cbn [_ffs ext _ffs_mutex errno_res]. rewrite He.
  destruct (res =? 0); reflexivity.
Qed.

Lemma rename_run this (oldname newname : string) w res e :
  f_rename oldname newname (_ffs w) (ext w) = (res, e) ->
  rename this oldname newname w =
  Some (if res =? 0 then 0 else -1, after_engine w res e).
Proof.
  intros He. unfold rename, bind, lock, engine, on_ext.
  cbn [_ffs ext _ffs_mutex errno_res]. rewrite He.
  destruct (res =? 0); reflexivity.
Qed.

Lemma mkdir_run this (name : string) (mode : Z) w res e :
  f_mkdir name (_ffs w) (ext w) = (res, e) ->
  mkdir this name mode w =
  Some (if res =? 0 then 0 else -1, after_engine w res e).
Proof.
  intros He. unfold mkdir, bind, lock, engine, on_ext.
  cbn [_ffs ext _ffs_mutex errno_res]. rewrite He. reflexivity.
Qed.

Lemma opendir_run this (name : string) w res dir e :
  f_opendir name (_ffs w) (ext w) = (res, dir, e) ->
  opendir this name w =
  Some (if res =? 0 then Some {| _dir := dir |} else None,
        after_engine w res e).
Proof.
  intros He. unfold opendir, bind, lock, engine, on_ext.
  cbn [_ffs ext _ffs_mutex errno_res]. rewrite He.
  destruct (res =? 0); reflexivity.
Qed.

Lemma stat_run this (name : string) (st : struct_stat) w res f e :
  f_stat name (_ffs w) (ext w) = (res, f, e) ->
  stat this name st w =
  Some (if res =? 0
        then (0, if TOOLCHAIN_GCC
                 then {| st_size := to_off_t (FILINFO_fsize f);
                         st_mode := stat_mode (fattrib f) |}
                 else st)
        else (-1, st),
        after_engine w res e).
Proof.
  intros He. unfold stat, bind, lock, engine, on_ext.
  cbn [_ffs ext _ffs_mutex errno_res]. rewrite He.
  destruct (res =? 0); reflexivity.
Qed.

(** X15: [sync], [remove], [rename], [opendir], [mkdir] and [stat] always
    return, and so does [open] when its path fits the buffer; each leaves the
    volume table untouched and the mutex at the depth it found. *)
Theorem file_operations_keep_table this w :
  (exists r w', sync this w = Some (r, w') /\ table_and_lock_kept w w') /\
  (forall name flags,
      (String.length (open_path this name) < 64)%nat ->
      exists r w', open this name flags w = Some (r, w') /\
                   table_and_lock_kept w w') /\
  (forall name,
      exists r w', remove this name w = Some (r, w') /\
                   table_and_lock_kept w w') /\
  (forall oldname newname,
      exists r w', rename this oldname newname w = Some (r, w') /\
                   table_and_lock_kept w w') /\
  (forall name,
      exists r w', opendir this name w = Some (r, w') /\
                   table_and_lock_kept w w') /\
  (forall name mode,
      exists r w', mkdir this name mode w = Some (r, w') /\
                   table_and_lock_kept w w') /\
  (forall name st,
      exists r w', stat this name st w = Some (r, w') /\
                   table_and_lock_kept w w').
Proof.
  split; [| split; [| split; [| split; [| split; [| split]]]]].
  - unfold sync, bind, lock. destruct (_id this =? -1);
      eexists _, _; (split; [reflexivity | split; reflexivity]).
  - intros name flags Hlen.
    destruct (f_open (open_path this name) (open_mode flags) (_ffs w) (ext w))
      as [[res fh] e1] eqn:Hopen.
    rewrite (open_run this name flags w res fh e1 Hlen Hopen).
    destruct (res =? 0); [destruct (Z.land flags O_APPEND =? 0) |];
      eexists _, _; (split; [reflexivity | split; reflexivity]).
  - intros name.
    destruct (f_unlink name (_ffs w) (ext w)) as [res e] eqn:He.
    rewrite (remove_run this name w res e He).
    eexists _, _. split; [reflexivity | split; reflexivity].
  - intros oldname newname.
    destruct (f_rename oldname newname (_ffs w) (ext w)) as [res e] eqn:He.
    rewrite (rename_run this oldname newname w res e He).
    eexists _, _. split; [reflexivity | split; reflexivity].
  - intros name.
    destruct (f_opendir name (_ffs w) (ext w)) as [[res dir] e] eqn:He.
    rewrite (opendir_run this name w res dir e He).
    eexists _, _. split; [reflexivity | split; reflexivity].
  - intros name mode.
    destruct (f_mkdir name (_ffs w) (ext w)) as [res e] eqn:He.
    rewrite (mkdir_run this name mode w res e He).
    eexists _, _. split; [reflexivity | split; reflexivity].
  - intros name st.
    destruct (f_stat name (_ffs w) (ext w)) as [[res f] e] eqn:He.
    rewrite (stat_run this name st w res f e He).
    eexists _, _. split; [reflexivity | split; reflexivity].
Qed.

(** X16: [remove], [rename] and [mkdir] return 0 when the engine's result is
    0 and -1 otherwise, [opendir] a handle or null likewise; the result is
    recorded for errno.  The engine gets the caller's path as it is, without
    the volume label, so the outcome is the same on every instance. *)
Theorem path_operations_report_engine_result this this' w :
  (forall name res e,
      f_unlink name (_ffs w) (ext w) = (res, e) ->
      remove this name w = Some (if res =? 0 then 0 else -1, after_engine w res e) /\
      remove this' name w = remove this name w) /\
  (forall oldname newname res e,
      f_rename oldname newname (_ffs w) (ext w) = (res, e) ->
      rename this oldname newname w =
        Some (if res =? 0 then 0 else -1, after_engine w res e) /\
      rename this' oldname newname w = rename this oldname newname w) /\
  (forall name mode res e,
      f_mkdir name (_ffs w) (ext w) = (res, e) ->
      mkdir this name mode w =
        Some (if res =? 0 then 0 else -1, after_engine w res e) /\
      mkdir this' name mode w = mkdir this name mode w) /\
  (forall name res dir e,
      f_opendir name (_ffs w) (ext w) = (res, dir, e) ->
      opendir this name w =
        Some (if res =? 0 then Some {| _dir := dir |} else None,
              after_engine w res e) /\
      opendir this' name w = opendir this name w).
Proof.
  split; [| split; [| split]].
  - intros name res e He.
    rewrite (remove_run this name w res e He), (remove_run this' name w res e He).
    split; reflexivity.
  - intros oldname newname res e He.
    rewrite (rename_run this oldname newname w res e He),
      (rename_run this' oldname newname w res e He).
    split; reflexivity.
  - intros name mode res e He.
    rewrite (mkdir_run this name mode w res e He),
      (mkdir_run this' name mode w res e He).
    split; reflexivity.
  - intros name res dir e He.
    rewrite (opendir_run this name w res dir e He),
      (opendir_run this' name w res dir e He).
    split; reflexivity.
Qed.

Lemma lor_below_pow2 n a b :
  0 <= n -> 0 <= a < 2 ^ n -> 0 <= b < 2 ^ n -> 0 <= Z.lor a b < 2 ^ n.
Proof.
  intros Hn Ha Hb.
  assert (Hnn : 0 <= Z.lor a b) by (apply Z.lor_nonneg; lia).
  split; [exact Hnn |].
  destruct (Z.eq_dec (Z.lor a b) 0) as [Hz | Hnz]; [lia |].
  assert (Hpos : 0 < n).
  { destruct (Z.eq_dec n 0) as [-> | Hne]; [| lia].
    exfalso. apply Hnz. change (2 ^ 0) with 1 in Ha, Hb.
    replace a with 0 by lia. replace b with 0 by lia. reflexivity. }
  apply Z.log2_lt_pow2; [lia |].
  rewrite Z.log2_lor by lia.
  assert (La : Z.log2 a < n).
  { destruct (Z.eq_dec a 0) as [-> | Hne]; [exact Hpos |].
    apply Z.log2_lt_pow2; lia. }
  assert (Lb : Z.log2 b < n).
  { destruct (Z.eq_dec b 0) as [-> | Hne]; [exact Hpos |].
    apply Z.log2_lt_pow2; lia. }
  lia.
Qed.

(** Without the conversions: the file type ored with the permissions. *)
Lemma stat_mode_value (attrib : Z) :
  mode_bits_fit ->
  stat_mode attrib =
  Z.lor (if Z.land attrib AM_DIR =? 0 then S_IFREG else S_IFDIR)
        (if Z.land attrib AM_RDO =? 0
         then Z.lor (Z.lor S_IRWXU S_IRWXG) S_IRWXO
         else Z.lor (Z.lor (Z.lor (Z.lor (Z.lor S_IRUSR S_IXUSR) S_IRGRP)
                              S_IXGRP) S_IROTH) S_IXOTH).
Proof.
  intros [Hconv Hbits]. unfold stat_mode.
  repeat (apply Forall_cons in Hbits as [? Hbits]).
  assert (L : forall a b, 0 <= a < 2 ^ 16 -> 0 <= b < 2 ^ 16 ->
                          0 <= Z.lor a b < 2 ^ 16)
    by (intros a b; apply lor_below_pow2; lia).
  rewrite (Hconv 0) by lia. rewrite Z.lor_0_l.
  destruct (Z.land attrib AM_DIR =? 0), (Z.land attrib AM_RDO =? 0);
    cbn [negb];
    rewrite ?(Hconv S_IFDIR), ?(Hconv S_IFREG) by assumption;
    rewrite Hconv by (repeat apply L; assumption); reflexivity.
Qed.

(** X17: when the engine's [f_stat] fails, [stat] returns -1 and leaves
    [*st] as it was.  When it succeeds [stat] returns 0; built with GCC it
    stores the size and a mode made of [S_IFDIR] or [S_IFREG] (by [AM_DIR])
    and the read/execute or the full permissions (by [AM_RDO]); built
    otherwise it stores nothing. *)
Theorem stat_result this (name : string) (st : struct_stat) w res f e :
  mode_bits_fit ->
  f_stat name (_ffs w) (ext w) = (res, f, e) ->
  exists r st',
    stat this name st w = Some ((r, st'), after_engine w res e) /\
    (res <> 0 -> r = -1 /\ st' = st) /\
    (res = 0 -> r = 0) /\
    (res = 0 -> TOOLCHAIN_GCC = false -> st' = st) /\
    (res = 0 -> TOOLCHAIN_GCC = true ->
     st_size st' = to_off_t (FILINFO_fsize f) /\
     st_mode st' =
       Z.lor (if Z.land (fattrib f) AM_DIR =? 0 then S_IFREG else S_IFDIR)
             (if Z.land (fattrib f) AM_RDO =? 0
              then Z.lor (Z.lor S_IRWXU S_IRWXG) S_IRWXO
              else Z.lor (Z.lor (Z.lor (Z.lor (Z.lor S_IRUSR S_IXUSR) S_IRGRP)
                                   S_IXGRP) S_IROTH) S_IXOTH)).
Proof.
  intros Hfit He. rewrite (stat_run this name st w res f e He).
  destruct (Z.eqb_spec res 0) as [Hz | Hnz].
  - eexists _, _. split; [reflexivity |].
    split; [intros Hne; contradiction |]. split; [reflexivity |].
    split; intros _ Hgcc; rewrite Hgcc; [reflexivity |].
    cbn [st_size st_mode]. split; [reflexivity |].
    apply stat_mode_value. exact Hfit.
  - eexists _, _. split; [reflexivity |].
    split; [intros _; split; reflexivity |].
    split; [intros Hz; contradiction |].
    split; intros Hz; contradiction.
Qed.

(** ** Labels *)

Lemma fsid_of_inj (i j : nat) :
  (i < 208)%nat -> (j < 208)%nat -> fsid_of i = fsid_of j -> i = j.
Proof.
  intros Hi Hj H. unfold fsid_of in H. injection H as H.
  apply (f_equal nat_of_ascii) in H.
  rewrite !nat_ascii_embedding in H by lia. lia.
Qed.

(** X18: below 208 slots, different slots have different labels, and the
    paths [open] builds for instances of different slots differ whatever the
    file names. *)
Theorem volume_labels_distinct (i j : nat) this_i this_j :
  (i < 208)%nat -> (j < 208)%nat -> i <> j ->
  _fsid this_i = fsid_of i -> _fsid this_j = fsid_of j ->
  fsid_of i <> fsid_of j /\
  forall name name', open_path this_i name <> open_path this_j name'.
Proof.
  intros Hi Hj Hne Hfi Hfj.
  assert (Hlab : fsid_of i <> fsid_of j)
    by (intros H; apply Hne; apply fsid_of_inj; assumption).
  split; [exact Hlab |].
  intros name name' H. unfold open_path in H. rewrite Hfi, Hfj in H.
  unfold fsid_of in H, Hlab. cbn [String.append] in H.
  injection H as Hc _. apply Hlab. f_equal. exact Hc.
Qed.

(** ** Construction and destruction *)

(** X19: the constructor without a device yields an unmounted instance and
    changes nothing.  With a device it always returns, keeps the length of
    the table and the mutex, and yields an instance that is unmounted or owns
    the slot it stored the device in; on a full table the failure of [mount]
    goes unreported: the instance is unmounted and nothing has changed. *)
Theorem constructor_outcome (fsid0 : string) w :
  length (_ffs w) = _VOLUMES ->
  FATFileSystem_new fsid0 None w = Some ({| _id := -1; _fsid := fsid0 |}, w) /\
  forall bd,
    exists this' w',
      FATFileSystem_new fsid0 (Some bd) w = Some (this', w') /\
      length (_ffs w') = _VOLUMES /\
      _ffs_mutex w' = _ffs_mutex w /\
      owns_slot this' w' /\
      (Forall (fun slot => slot <> None) (_ffs w) ->
       this' = {| _id := -1; _fsid := fsid0 |} /\ w' = w) /\
      (_id this' <> -1 ->
       exists i : nat, _id this' = Z.of_nat i /\ _ffs w !! i = Some None /\
                       _ffs w' = <[i := Some bd]> (_ffs w)).
Proof.
  intros Hlen. split; [reflexivity |]. intros bd.
  unfold FATFileSystem_new.
  set (this := {| _id := -1; _fsid := fsid0 |}).
  destruct (mount_outcomes this bd mount_force_default w eq_refl Hlen)
    as [[Hfull Hrun] | (i & res & e' & Hi & Hfree & _ & Hrun)];
    rewrite (bind_Some _ _ w _ _ Hrun); cbn [snd ret].
  - exists this, w. split; [reflexivity |]. split; [exact Hlen |].
    split; [reflexivity |]. split; [left; reflexivity |].
    split; [intros _; split; reflexivity |].
    intros Hne. exfalso. apply Hne. reflexivity.
  - eexists _, _. split; [reflexivity |]. cbn [_ffs _ffs_mutex _id].
    split; [rewrite length_insert; exact Hlen |]. split; [reflexivity |].
    split.
    { right. exists i, bd. cbn [_id _ffs]. split; [reflexivity |].
      split; [exact Hi |]. apply list_lookup_insert_eq. rewrite Hlen. exact Hi. }
    split.
    { intros Hfull. rewrite Forall_lookup in Hfull.
      destruct (Hfull i None Hfree eq_refl). }
    intros _. exists i. repeat split. exact Hfree.
Qed.

(** X20: constructing an instance, with or without a device, and destroying
    it leaves the volume table and the mutex as they were. *)
Theorem constructor_destructor_restore_table (fsid0 : string)
    (bd : option (BlockDevice Ext)) w :
  length (_ffs w) = _VOLUMES ->
  exists this' w1 w2,
    FATFileSystem_new fsid0 bd w = Some (this', w1) /\
    FATFileSystem_delete this' w1 = Some (tt, w2) /\
    _ffs w2 = _ffs w /\
    _ffs_mutex w2 = _ffs_mutex w.
Proof.
  intros Hlen. unfold FATFileSystem_new, FATFileSystem_delete.
  set (this := {| _id := -1; _fsid := fsid0 |}).
  destruct bd as [bd |].
  - destruct (mount_outcomes this bd mount_force_default w eq_refl Hlen)
      as [[_ Hrun] | (i & res & e' & _ & Hfree & _ & Hrun)];
      rewrite (bind_Some _ _ w _ _ Hrun); cbn [snd ret].
    + exists this, w, w. split; [reflexivity |].
      rewrite (bind_Some _ _ w _ _ (unmount_unmounted_run this w eq_refl)).
      repeat split.
    + destruct (unmount_after_mount w i bd (_ffs_mutex w) res e' Hfree)
        as (r2 & w2 & Hun & Htable & Hmutex).
      eexists _, _, w2. split; [reflexivity |].
      rewrite (bind_Some _ _ _ _ _ Hun). repeat split; assumption.
  - exists this, w, w. split; [reflexivity |].
    rewrite (bind_Some _ _ w _ _ (unmount_unmounted_run this w eq_refl)).
    repeat split.
Qed.

End MoreAdapterFacts.


(** ** The theorems at work on the sample configuration *)

#[local] Existing Instance arm_newlib.

(** [unmount] with an engine that answers 13: the slot is emptied all the same. *)
Lemma unmount_clears_slot_witness :
  exists r this' w',
    unmount (eng := answering 13)
      {| _id := 0; _fsid := "0" |}
      (world_of [Some ram_disk; None; None; None]) = Some ((r, this'), w') /\
    r = -1 /\ _id this' = -1 /\ _ffs w' !! 0%nat = Some None.
Proof.
  destruct (unmount_clears_slot (eng := answering 13)
              {| _id := 0; _fsid := "0" |}
              (world_of [Some ram_disk; None; None; None]) 0%nat 13 ram_zero
              eq_refl ltac:(cbn; lia) eq_refl)
    as (r & this' & w' & Hrun & Hr & Hid & Hslot & _).
  exists r, this', w'. repeat split; assumption.
Defined.

(** [mount] into the second slot with an engine that answers 13. *)
Lemma mount_engine_failure_keeps_slot_witness :
  exists this' w',
    mount (hdr := arm_newlib) (eng := answering 13) unmounted ram_disk true
      (world_of [Some ram_disk; None; None; None]) = Some ((-1, this'), w') /\
    _ffs w' !! 1%nat = Some (Some ram_disk) /\
    _id this' = 1.
Proof.
  destruct (mount_engine_failure_keeps_slot (hdr := arm_newlib)
              (eng := answering 13) unmounted ram_disk true
              (world_of [Some ram_disk; None; None; None]) 1%nat 13 ram_zero)
    as (this' & w' & Hrun & Hslot & Hid & _).
  - reflexivity.
  - reflexivity.
  - reflexivity.
  - intros j Hj. exists ram_disk. destruct j as [| j]; [reflexivity | lia].
  - reflexivity.
  - discriminate.
  - exists this', w'. repeat split; assumption.
Defined.

(** C2 as stated fails: with an empty table and an engine whose mount call
    answers 13, [mount] returns -1 while slot 0 holds the device and [_id]
    is 0. *)
Lemma mount_engine_failure_counterexample :
  fst (f_mount (Engine := answering 13) true "0" 1
         [Some ram_disk; None; None; None] ram_zero) <> 0 /\
  exists this' w',
    mount (hdr := arm_newlib) (eng := answering 13) unmounted ram_disk true
      (world_of [None; None; None; None]) = Some ((-1, this'), w') /\
    _ffs w' !! 0%nat = Some (Some ram_disk) /\
    _ffs w' !! 0%nat <> Some None /\
    _id this' = 0 /\
    _id this' <> -1.
Proof.
  split; [discriminate |].
  exists {| _id := 0; _fsid := "0" |},
         {| _ffs := [Some ram_disk; None; None; None]; _ffs_mutex := 0;
            errno_res := 13; ext := ram_zero |}.
  repeat split; try reflexivity; discriminate.
Qed.

(** [mount] on a table of four occupied slots. *)
Lemma mount_full_table_fails_witness :
  mount (hdr := arm_newlib) (eng := answering 0) unmounted ram_disk false
    (world_of [Some ram_disk; Some ram_disk; Some ram_disk; Some ram_disk])
  = Some ((-1, unmounted),
          world_of [Some ram_disk; Some ram_disk; Some ram_disk; Some ram_disk]).
Proof.
  apply (mount_full_table_fails (hdr := arm_newlib) (eng := answering 0)).
  - reflexivity.
  - reflexivity.
  - repeat constructor; discriminate.
Defined.

(** C5 as stated fails: [sync] on an unmounted instance returns -1. *)
Lemma sync_unmounted_counterexample :
  exists r w',
    sync (hdr := arm_newlib) unmounted (world_of [None; None; None; None])
      = Some (r, w') /\
    r <> 0.
Proof.
  exists (-1), (world_of [None; None; None; None]).
  split; [reflexivity | discriminate].
Qed.

(** Reading two sectors from sector 1 of the RAM disk: bytes 512 to 1535. *)
Lemma disk_transfer_uses_write_size_witness :
  disk_read (hdr := arm_newlib) 0 1 2 (world_of [Some ram_disk; None; None; None])
  = Some ((RES_OK, repeat Byte.x00 1024),
          world_of [Some ram_disk; None; None; None]) /\
  bd_mul (hdr := arm_newlib) 1 (get_write_size ram_disk) = 512 /\
  bd_mul (hdr := arm_newlib) 2 (get_write_size ram_disk) = 1024.
Proof.
  destruct (disk_transfer_uses_write_size (hdr := arm_newlib) 0
              (world_of [Some ram_disk; None; None; None]) ram_disk 1 2 []
              ltac:(lia) eq_refl)
    as ((err & data & e' & Hread & Hrun) & _ & Hs & Hc).
  split; [| split].
  - rewrite Hrun. vm_compute in Hread. injection Hread as <- <- <-.
    reflexivity.
  - apply Hs. cbn. lia.
  - apply Hc. cbn. lia.
Defined.

(** The sample headers meet the conditions on the header values. *)
Lemma ioctl_labels_distinct_arm_newlib : ioctl_labels_distinct (hdr := arm_newlib).
Proof.
  apply (bool_decide_unpack _). vm_compute. exact I.
Defined.

(** The queries on an empty slot 0. *)
Lemma disk_ioctl_queries_witness :
  disk_ioctl (hdr := arm_newlib) 0 GET_BLOCK_SIZE
    (world_of [None; None; None; None])
  = Some ((RES_OK, Some 1), world_of [None; None; None; None]) /\
  disk_ioctl (hdr := arm_newlib) 0 GET_SECTOR_COUNT
    (world_of [None; None; None; None])
  = Some ((RES_NOTRDY, None), world_of [None; None; None; None]).
Proof.
  destruct (disk_ioctl_queries (hdr := arm_newlib) 0
              (world_of [None; None; None; None]) None
              ioctl_labels_distinct_arm_newlib ltac:(lia) eq_refl)
    as (Hblock & _ & Hcount & _).
  split; assumption.
Defined.

(** C6 as stated fails: on the empty slot 0 the block-size query answers
    [RES_OK], not [RES_NOTRDY]. *)
Lemma disk_ioctl_block_size_counterexample :
  _ffs (world_of [None; None; None; None]) !! Z.to_nat 0 = Some None /\
  exists r out w',
    disk_ioctl (hdr := arm_newlib) 0 GET_BLOCK_SIZE
      (world_of [None; None; None; None]) = Some ((r, out), w') /\
    r <> RES_NOTRDY.
Proof.
  split; [reflexivity |].
  exists RES_OK, (Some 1), (world_of [None; None; None; None]).
  split; [reflexivity | discriminate].
Qed.

Lemma open_modes_are_bytes_arm_newlib : open_modes_are_bytes (hdr := arm_newlib).
Proof. unfold open_modes_are_bytes. cbn. repeat constructor; lia. Defined.

(** [O_WRONLY | O_CREAT | O_APPEND] (521): write access, open-always, and the
    position at the file's size. *)
Lemma open_translates_flags_witness :
  open_mode (hdr := arm_newlib) 521 = 18 /\
  open (hdr := arm_newlib) (eng := answering 0)
    {| _id := 0; _fsid := "0" |} "log.txt" 521
    (world_of [Some ram_disk; None; None; None])
  = Some (Some {| _fh := (2048, 2048) |},
          world_of [Some ram_disk; None; None; None]).
Proof.
  destruct (open_translates_flags (hdr := arm_newlib) (eng := answering 0)
              {| _id := 0; _fsid := "0" |} "log.txt" 521
              (world_of [Some ram_disk; None; None; None]) 0 (2048, 0) ram_zero
              open_modes_are_bytes_arm_newlib ltac:(cbn; lia) eq_refl)
    as (_ & Hw & _ & _ & Hoa & _ & _ & _ & Happ).
  split.
  - rewrite Hoa by (cbn; discriminate || reflexivity).
    rewrite Hw by (cbn; discriminate || reflexivity). reflexivity.
  - destruct Happ as (r & fh' & e2 & Hseek & Hrun);
      [reflexivity | cbn; discriminate |].
    rewrite Hrun. injection Hseek as <- <- <-. reflexivity.
Defined.

(** [O_WRONLY | O_TRUNC] (1025) opens like [O_WRONLY] (1). *)
Lemma open_trunc_without_creat_witness :
  open_mode (hdr := arm_newlib) 1025 = access_mode (hdr := arm_newlib) 1025 /\
  open (hdr := arm_newlib) (eng := answering 0)
    {| _id := 0; _fsid := "0" |} "log.txt" 1025
    (world_of [Some ram_disk; None; None; None])
  = open (hdr := arm_newlib) (eng := answering 0)
      {| _id := 0; _fsid := "0" |} "log.txt" 1
      (world_of [Some ram_disk; None; None; None]).
Proof.
  destruct (open_trunc_without_creat (hdr := arm_newlib) (eng := answering 0)
              {| _id := 0; _fsid := "0" |} "log.txt" 1025
              (world_of [Some ram_disk; None; None; None])
              open_modes_are_bytes_arm_newlib eq_refl eq_refl
              ltac:(cbn; discriminate) eq_refl)
    as (Hmode & _ & _ & Hsame).
  split; [exact Hmode | exact Hsame].
Defined.

(** The slice of the test: the last 8 of 16 blocks. *)
Lemma slice_negative_bound_equiv_witness :
  Slice_last (HeapBlockDevice (16 * 512) 512) (- (8 * 512))
  = Slice (HeapBlockDevice (16 * 512) 512) (16 * 512 - 8 * 512) (16 * 512).
Proof.
  apply (slice_negative_bound_equiv (-1) (HeapBlockDevice (16 * 512) 512) (8 * 512)).
  cbn. lia.
Defined.

(** An instance that is already mounted on slot 0. *)
Lemma mount_already_mounted_fails_witness :
  mount (eng := answering 0) {| _id := 0; _fsid := "0" |} ram_disk false
    (world_of [Some ram_disk; None; None; None])
  = Some ((-1, {| _id := 0; _fsid := "0" |}),
          world_of [Some ram_disk; None; None; None]).
Proof.
  apply (mount_already_mounted_fails (eng := answering 0)). discriminate.
Defined.

(** The destructor of an instance that was never mounted. *)
Lemma unmount_unmounted_fails_witness :
  unmount (eng := answering 0) unmounted (world_of [None; None; None; None])
  = Some ((-1, unmounted), world_of [None; None; None; None]).
Proof.
  apply (unmount_unmounted_fails (eng := answering 0)). reflexivity.
Defined.

(** A successful [mount] into the second slot. *)
Lemma mount_claims_first_free_slot_witness :
  exists this' w',
    mount (eng := answering 0) unmounted ram_disk false
      (world_of [Some ram_disk; None; None; None]) = Some ((0, this'), w') /\
    _id this' = 1 /\ _fsid this' = "1"%string /\
    _ffs w' !! 1%nat = Some (Some ram_disk).
Proof.
  destruct (mount_claims_first_free_slot (eng := answering 0) unmounted
              ram_disk false (world_of [Some ram_disk; None; None; None])
              1%nat 0 ram_zero)
    as (this' & w' & Hrun & Hid & Hlabel & Hslot & _).
  - reflexivity.
  - reflexivity.
  - reflexivity.
  - intros j Hj. exists ram_disk. destruct j as [| j]; [reflexivity | lia].
  - reflexivity.
  - exists this', w'. repeat split; assumption.
Defined.

(** Command 4 ([CTRL_TRIM] in FatFs) is not handled. *)
Lemma disk_ioctl_unknown_command_witness :
  disk_ioctl 0 4 (world_of [Some ram_disk; None; None; None])
  = Some ((RES_PARERR, None), world_of [Some ram_disk; None; None; None]).
Proof.
  apply (disk_ioctl_unknown_command (hdr := arm_newlib)); discriminate.
Defined.

(** [format] on an empty table with an engine that answers 13. *)
Lemma format_restores_table_witness :
  exists r w',
    format (eng := answering 13) "" ram_disk 512
      (world_of [None; None; None; None]) = Some (r, w') /\
    _ffs w' = [None; None; None; None].
Proof.
  destruct (format_restores_table (hdr := arm_newlib) (eng := answering 13)
              "" ram_disk 512
              (world_of [None; None; None; None]) eq_refl)
    as (r & w' & Hrun & _ & Htable & _).
  exists r, w'. split; assumption.
Defined.

(** ** The further properties at work *)

#[local] Existing Instance newlib_front.

(** The sample time is within the encodable range. *)
Lemma xmas_2016_in_range : tm_in_range xmas_2016.
Proof. unfold tm_in_range. cbn. lia. Defined.

(** The fields of the stamp of 25 December 2016, 13:37:42. *)
Lemma get_fattime_fields_witness :
  Z.shiftr (get_fattime xmas_2016) 25 = 36 /\
  Z.land (Z.shiftr (get_fattime xmas_2016) 21) 15 = 12 /\
  Z.land (get_fattime xmas_2016) 31 = 21.
Proof.
  destruct (get_fattime_fields (hdr := arm_newlib) xmas_2016
              ltac:(cbn; lia) xmas_2016_in_range)
    as (_ & Hy & Hm & _ & _ & _ & Hs).
  repeat split; assumption.
Defined.

(** One second later, the same stamp: nothing decreased. *)
Lemma get_fattime_monotone_witness :
  get_fattime xmas_2016
  <= get_fattime {| tm_sec := 43; tm_min := 37; tm_hour := 13;
                    tm_mday := 25; tm_mon := 11; tm_year := 116 |}.
Proof.
  apply (get_fattime_monotone (hdr := arm_newlib) xmas_2016
           {| tm_sec := 43; tm_min := 37; tm_hour := 13;
              tm_mday := 25; tm_mon := 11; tm_year := 116 |}).
  - cbn. lia.
  - exact xmas_2016_in_range.
  - unfold tm_in_range. cbn. lia.
  - unfold tm_earlier. cbn. lia.
Defined.

(** The callbacks on slot 0 holding the RAM disk. *)
Lemma disk_callbacks_keep_table_witness :
  exists r w',
    disk_write 0 (repeat Byte.xff 512) 1 1
      (world_of [Some ram_disk; None; None; None]) = Some (r, w') /\
    only_ext_changed (world_of [Some ram_disk; None; None; None]) w'.
Proof.
  destruct (disk_callbacks_keep_table (hdr := arm_newlib) 0
              (world_of [Some ram_disk; None; None; None]) ram_disk
              ltac:(lia) eq_refl ltac:(discriminate))
    as (_ & _ & _ & _ & Hw).
  exact (Hw (repeat Byte.xff 512) 1 1).
Defined.

(** The callbacks on the empty slot 0. *)
Lemma disk_transfer_null_slot_undefined_witness :
  disk_initialize 0 (world_of [None; None; None; None]) = None /\
  disk_read 0 0 1 (world_of [None; None; None; None]) = None.
Proof.
  destruct (disk_transfer_null_slot_undefined (hdr := arm_newlib) 0
              (world_of [None; None; None; None]) ltac:(lia) eq_refl)
    as (Hi & Hr & _).
  split; [exact Hi | exact (Hr 0 1)].
Defined.

(** The RAM disk initialises with 0. *)
Lemma disk_initialize_status_witness :
  disk_initialize 0 (world_of [Some ram_disk; None; None; None])
  = Some (0, world_of [Some ram_disk; None; None; None]).
Proof.
  destruct (disk_initialize_status (Ext := list Byte.byte) 0
              (world_of [Some ram_disk; None; None; None]) ram_disk 0 ram_zero
              ltac:(lia) eq_refl eq_refl)
    as (Hrun & _).
  exact Hrun.
Defined.

(** [mount] then [unmount] with an engine that answers 13. *)
Lemma mount_unmount_round_trip_witness :
  exists r1 this1 w1 r2 this2 w2,
    mount (eng := answering 13) unmounted ram_disk true
      (world_of [Some ram_disk; None; None; None]) = Some ((r1, this1), w1) /\
    unmount (eng := answering 13) this1 w1 = Some ((r2, this2), w2) /\
    _ffs w2 = [Some ram_disk; None; None; None].
Proof.
  destruct (mount_unmount_round_trip (hdr := arm_newlib) (eng := answering 13)
              unmounted ram_disk true
              (world_of [Some ram_disk; None; None; None]) eq_refl eq_refl)
    as (r1 & this1 & w1 & r2 & this2 & w2 & Hm & Hu & Ht & _).
  exists r1, this1, w1, r2, this2, w2. repeat split; assumption.
Defined.

(** A second [mount] after one the engine refused. *)
Lemma mount_retry_needs_unmount_witness :
  exists r this1 w1,
    mount (eng := answering 13) unmounted ram_disk true
      (world_of [None; None; None; None]) = Some ((r, this1), w1) /\
    mount (eng := answering 13) this1 ram_disk true w1 = Some ((-1, this1), w1).
Proof.
  destruct (mount_retry_needs_unmount (hdr := arm_newlib) (eng := answering 13)
              unmounted ram_disk true (world_of [None; None; None; None])
              0%nat eq_refl eq_refl eq_refl)
    as (r & this1 & w1 & Hm & _ & Hagain).
  exists r, this1, w1. split; [exact Hm | apply Hagain].
Defined.



(** The sample mode bits fit. *)
Lemma mode_bits_fit_newlib : mode_bits_fit (fhdr := newlib_front).
Proof.
  split.
  - intros x Hx. cbn [to_mode_t newlib_front]. apply Z.mod_small. lia.
  - cbn. repeat constructor; lia.
Defined.

(** [stat] of a read-only directory of size 100: mode 040555. *)
Lemma stat_result_witness :
  exists w',
    stat (peng := answering_paths 0) unmounted "dir"
      {| st_size := 0; st_mode := 0 |} (world_of [None; None; None; None])
    = Some ((0, {| st_size := 100; st_mode := 16749 |}), w').
Proof.
  destruct (stat_result (peng := answering_paths 0)
              unmounted "dir" {| st_size := 0; st_mode := 0 |}
              (world_of [None; None; None; None]) 0
              {| FILINFO_fsize := 100; fattrib := 17 |} ram_zero
              mode_bits_fit_newlib eq_refl)
    as (r & st' & Hrun & _ & Hr & _ & Hgcc).
  destruct (Hgcc eq_refl eq_refl) as (Hsize & Hmode).
  rewrite (Hr eq_refl) in Hrun.
  destruct st' as [sz md]. cbn [st_size st_mode] in Hsize, Hmode.
  rewrite Hsize, Hmode in Hrun.
  eexists. exact Hrun.
Defined.

(** Slots 0 and 1: labels "0" and "1". *)
Lemma volume_labels_distinct_witness :
  open_path {| _id := 0; _fsid := "0" |} "a.txt"
  <> open_path {| _id := 1; _fsid := "1" |} "a.txt".
Proof.
  destruct (volume_labels_distinct 0 1 {| _id := 0; _fsid := "0" |}
              {| _id := 1; _fsid := "1" |}
              ltac:(lia) ltac:(lia) ltac:(lia) eq_refl eq_refl)
    as (_ & Hpath).
  apply Hpath.
Defined.

(** Construction on a full table: the instance is silently unmounted. *)
Lemma constructor_outcome_witness :
  exists this' w',
    FATFileSystem_new (eng := answering 0) "" (Some ram_disk)
      (world_of [Some ram_disk; Some ram_disk; Some ram_disk; Some ram_disk])
    = Some (this', w') /\
    this' = unmounted.
Proof.
  destruct (constructor_outcome (hdr := arm_newlib) (eng := answering 0) ""
              (world_of [Some ram_disk; Some ram_disk; Some ram_disk;
                         Some ram_disk]) eq_refl)
    as (_ & Hdev).
  destruct (Hdev ram_disk) as (this' & w' & Hrun & _ & _ & _ & Hfull & _).
  exists this', w'. split; [exact Hrun |].
  apply Hfull. repeat constructor; discriminate.
Defined.

(** Construction with a device and destruction, the engine answering 13. *)
Lemma constructor_destructor_restore_table_witness :
  exists this' w1 w2,
    FATFileSystem_new (eng := answering 13) "" (Some ram_disk)
      (world_of [None; None; None; None]) = Some (this', w1) /\
    FATFileSystem_delete (eng := answering 13) this' w1 = Some (tt, w2) /\
    _ffs w2 = [None; None; None; None].
Proof.
  destruct (constructor_destructor_restore_table (hdr := arm_newlib)
              (eng := answering 13) "" (Some ram_disk)
              (world_of [None; None; None; None]) eq_refl)
    as (this' & w1 & w2 & Hnew & Hdel & Ht & _).
  exists this', w1, w2. repeat split; assumption.
Defined.

(** ** The slicing test *)

(** [test_slicing], first half: [slice1] over the first 8 blocks; a block
    written at its offset 0 is read back from the slice and from the device
    at offset 0. *)
Example test_slicing_slice1 :
  let bd := HeapBlockDevice (16 * 512) 512 in
  let mem := repeat Byte.x00 (16 * 512) in
  let block := repeat Byte.xa5 512 in
  exists slice1,
    Slice bd 0 (8 * 512) = Some slice1 /\
    get_write_size (slice_device (-1) slice1) = 512 /\
    size (slice_device (-1) slice1) = 8 * 512 /\
    exists mem',
      write (slice_device (-1) slice1) block 0 512 mem = (0, mem') /\
      read (slice_device (-1) slice1) 0 512 mem' = (0, block, mem') /\
      read bd 0 512 mem' = (0, block, mem').
Proof.
  cbv zeta. eexists. split; [reflexivity |].
  split; [reflexivity |]. split; [reflexivity |].
  eexists. split; [vm_compute; reflexivity |].
  split; vm_compute; reflexivity.
Qed.

(** [test_slicing], second half: [slice2] is built from the bound
    [-8*BLOCK_SIZE]; a block written at its offset 0 is read back from the
    slice and from the device at offset [8*BLOCK_SIZE]. *)
Example test_slicing_slice2 :
  let bd := HeapBlockDevice (16 * 512) 512 in
  let mem := repeat Byte.x00 (16 * 512) in
  let block := repeat Byte.xa5 512 in
  exists slice2,
    Slice_last bd (-8 * 512) = Some slice2 /\
    get_write_size (slice_device (-1) slice2) = 512 /\
    size (slice_device (-1) slice2) = 8 * 512 /\
    exists mem',
      write (slice_device (-1) slice2) block 0 512 mem = (0, mem') /\
      read (slice_device (-1) slice2) 0 512 mem' = (0, block, mem') /\
      read bd (8 * 512) 512 mem' = (0, block, mem').
Proof.
  cbv zeta. eexists. split; [reflexivity |].
  split; [reflexivity |]. split; [reflexivity |].
  eexists. split; [vm_compute; reflexivity |].
  split; vm_compute; reflexivity.
Qed.
